(** * BatchScriptExecution: file-access reconciliation and batch execution

    A shallow embedding of [BatchScriptExecution.py]: the file status
    classifier, the directory scanner, the name filters, the per-file
    reconciliation actions of the confirmation dialog and the execution
    loop, followed by the properties of the specification.

    Conventions.
    - Python [str] is [string], a sequence of the code points 0 to 255;
      Python [int] is [Z].
    - The file system is a finite map from paths to mode words; what the
      kernel answers for the calling process is a field of [OS].
    - Code that raises or mutates the outside world lives in the monad [M]
      (state over [World], plus exceptions).  The state survives a raise.
    - The execution loop and the user script it runs also hold the dict of
      file records; they live in [Run], which adds the dict to the state.
    - [os.scandir] answers with a listing or raises.
    - Widget edits ([cmds.text], [cmds.button]) and [print] change nothing
      the logic reads and are left out; dialogs, host document commands and
      system calls are kept. *)

From Stdlib Require Import ZArith List String Ascii Bool Lia.
From stdpp Require Import base option list gmap strings.

Import ListNotations.
Local Open Scope Z_scope.

(** ** Python string methods used by the program *)

Module Py.

(** Truth value of a [str]: the empty string is false. *)
Definition truthy (s : string) : bool := negb (String.eqb s "").

(** [s.startswith(p)] *)
Definition startswith (s p : string) : bool := String.prefix p s.

(** [s.endswith(suf)]: [s] is [suf], or the tail of [s] ends with it. *)
Fixpoint endswith (s suf : string) : bool :=
  String.eqb s suf ||
  match s with
  | EmptyString => false
  | String _ t => endswith t suf
  end.

(** [sub in s] *)
Fixpoint contains (sub s : string) : bool :=
  String.prefix sub s ||
  match s with
  | EmptyString => false
  | String _ t => contains sub t
  end.

(** [s.split(sep)] for a one-character separator; never the empty list. *)
Fixpoint split (sep : ascii) (s : string) : list string :=
  match s with
  | EmptyString => [""]
  | String c t =>
      if Ascii.eqb c sep then "" :: split sep t
      else match split sep t with
           | h :: r => String c h :: r
           | [] => [String c ""]
           end
  end.

(** [l[0]] and [l[-1]] on the result of a split. *)
Definition first (l : list string) : string := List.hd "" l.
Definition final (l : list string) : string := List.last l "".

(** [s.replace(a, b)] for single characters, and [s.replace(a, "")]. *)
Fixpoint replace_char (a b : ascii) (s : string) : string :=
  match s with
  | EmptyString => ""
  | String c t =>
      String (if Ascii.eqb c a then b else c) (replace_char a b t)
  end.

Fixpoint remove_char (a : ascii) (s : string) : string :=
  match s with
  | EmptyString => ""
  | String c t =>
      if Ascii.eqb c a then remove_char a t else String c (remove_char a t)
  end.

(** [x in l] for a list of strings. *)
Definition member (x : string) (l : list string) : bool :=
  existsb (String.eqb x) l.

(** [os.path.basename] on a path whose separators are forward slashes. *)
Definition basename (p : string) : string := final (split "/"%char p).

(** A string without the given character. *)
Fixpoint lacks (a : ascii) (s : string) : bool :=
  match s with
  | EmptyString => true
  | String c t => negb (Ascii.eqb c a) && lacks a t
  end.

End Py.

(** ** Data model *)

Inductive FileStatus : Set :=
| does_not_exist
| writable
| read_only
| skip.

Definition FileStatus_value (s : FileStatus) : Z :=
  match s with
  | does_not_exist => 1
  | writable => 2
  | read_only => 3
  | skip => 4
  end.

Definition FileStatus_eqb (a b : FileStatus) : bool :=
  FileStatus_value a =? FileStatus_value b.

(** [str(status)], as interpolated in the warning text. *)
Definition FileStatus_str (s : FileStatus) : string :=
  match s with
  | does_not_exist => "FileStatus.does_not_exist"
  | writable => "FileStatus.writable"
  | read_only => "FileStatus.read_only"
  | skip => "FileStatus.skip"
  end.

Inductive FileResult : Set :=
| success
| failed
| file_invalid
| file_tampered
| file_missing
| file_not_found
| file_read_only
| file_skipped.

Definition FileResult_value (r : FileResult) : Z :=
  match r with
  | success => 0
  | failed => 1
  | file_invalid => 2
  | file_tampered => 3
  | file_missing => 4
  | file_not_found => 5
  | file_read_only => 6
  | file_skipped => 7
  end.

(** ** The outside world *)

(** Mode words by path. *)
Abbreviation FS := (gmap string Z).

Inductive Event : Set :=
| ev_chmod (path : string) (mode : Z)
| ev_file_open (path : string)
| ev_file_save
| ev_file_new
| ev_exec (command : string)
| ev_mel_eval (command : string)
| ev_p4_edit (path : string)
| ev_confirmDialog (title message : string).

Record World := mkWorld {
  fs : FS;
  trace : list Event
}.

Inductive Exn : Set :=
| OSError (msg : string)
| RuntimeError (msg : string)
| TypeError (msg : string)
| KeyError (msg : string)
| P4Exception (msg : string)
| ScriptError (msg : string).

Inductive Res (A : Type) : Type :=
| Ok (a : A)
| Raise (e : Exn).
Arguments Ok {A} a.
Arguments Raise {A} e.

Definition M (A : Type) : Type := World -> World * Res A.

Definition ret {A} (a : A) : M A := fun w => (w, Ok a).
Definition raise {A} (e : Exn) : M A := fun w => (w, Raise e).
Definition bind {A B} (m : M A) (k : A -> M B) : M B :=
  fun w => match m w with
           | (w', Ok a) => k a w'
           | (w', Raise e) => (w', Raise e)
           end.
Definition get_fs : M FS := fun w => (w, Ok (fs w)).
Definition emit (e : Event) : M unit :=
  fun w => (mkWorld (fs w) (trace w ++ [e]), Ok tt).

(** [try: m except OSError as e: h e] *)
Definition except_OSError {A} (m : M A) (h : string -> M A) : M A :=
  fun w => match m w with
           | (w', Raise (OSError msg)) => h msg w'
           | r => r
           end.

Declare Scope py_scope.
Delimit Scope py_scope with py.
Notation "x <- m ;; k" := (bind m (fun x => k))
  (at level 100, m at next level, right associativity) : py_scope.
Notation "m ;;; k" := (bind m (fun _ => k))
  (at level 100, right associativity) : py_scope.
Local Open Scope py_scope.

(** What the operating system decides for the calling process. *)
Record OS := mkOS {
  platform_system : string;                 (* platform.system() *)
  access_W_OK : string -> Z -> bool;        (* access(2) with W_OK on a file of that mode *)
  chmod_allowed : string -> bool            (* may the process chmod the file *)
}.

Definition S_IWUSR : Z := 128.
Definition S_IWGRP : Z := 16.
Definition S_IWOTH : Z := 2.
Definition S_IWRITE : Z := 128.

(** ** File records *)

(** [PendingFile].  The class attribute [skip_file] (declared [False], never
    read nor written by the program) is the field [skip_file_attr]. *)
Record PendingFile := mkPendingFile {
  path : string;
  file_name : option string;
  status : FileStatus;
  result : option FileResult;
  warning : option string;
  skip_file_attr : bool
}.

Definition set_status (f : PendingFile) (s : FileStatus) : PendingFile :=
  mkPendingFile (path f) (file_name f) s (result f) (warning f) (skip_file_attr f).

Definition set_result (f : PendingFile) (r : FileResult) : PendingFile :=
  mkPendingFile (path f) (file_name f) (status f) (Some r) (warning f) (skip_file_attr f).

Definition set_warning (f : PendingFile) (msg : string) : PendingFile :=
  mkPendingFile (path f) (file_name f) (status f) (result f) (Some msg) (skip_file_attr f).

Definition set_file_name (f : PendingFile) (n : string) : PendingFile :=
  mkPendingFile (path f) (Some n) (status f) (result f) (warning f) (skip_file_attr f).

(** A [dict] from paths to file records, in insertion order. *)
Abbreviation Files := (list (string * PendingFile)).

(** [d[k] = v]: overwrite in place, or append a new key. *)
Fixpoint dict_set (d : Files) (k : string) (v : PendingFile) : Files :=
  match d with
  | [] => [(k, v)]
  | (k', v') :: rest =>
      if String.eqb k' k then (k', v) :: rest else (k', v') :: dict_set rest k v
  end.

(** [d] with the record at position [k] rewritten by [f]: an attribute
    assignment on the object that the dict holds there. *)
Fixpoint write_record (k : nat) (f : PendingFile -> PendingFile) (d : Files) {struct d}
    : Files :=
  match d with
  | [] => []
  | (key, v) :: rest =>
      match k with
      | O => (key, f v) :: rest
      | S k' => (key, v) :: write_record k' f rest
      end
  end.

(** ** Code that can reach the records

    [Run A] is [M A] with the dict of file records as a second piece of
    state: the loop of [execute_script] and the user script it runs both
    hold the dict and the records in it.  As in [M], the state survives a
    raise. *)
Definition Run (A : Type) : Type := Files -> World -> World * (Files * Res A).

Definition run_ret {A} (a : A) : Run A := fun d w => (w, (d, Ok a)).
Definition run_bind {A B} (m : Run A) (k : A -> Run B) : Run B :=
  fun d w => match m d w with
             | (w', (d', Ok a)) => k a d' w'
             | (w', (d', Raise e)) => (w', (d', Raise e))
             end.

(** Code that does not touch the records. *)
Definition lift {A} (m : M A) : Run A :=
  fun d w => match m w with (w', r) => (w', (d, r)) end.

(** [pending_file.<attribute> = ...] on the record at position [k]. *)
Definition assign (k : nat) (f : PendingFile -> PendingFile) : Run unit :=
  fun d w => (w, (write_record k f d, Ok tt)).

Declare Scope run_scope.
Delimit Scope run_scope with run.
Notation "x <- m ;; k" := (run_bind m (fun x => k))
  (at level 100, m at next level, right associativity) : run_scope.
Notation "m ;;; k" := (run_bind m (fun _ => k))
  (at level 100, right associativity) : run_scope.

(** ** The version-control provider and the host application *)

Record Perforce := mkPerforce {
  has_perforce_installed : bool;                       (* the P4 module imports *)
  p4config_optionVar : option string;                  (* the saved optionVar, if it exists *)
  read_p4config : string -> M (list (string * string));
  p4_connect : M unit;
  p4_run_edit : string -> M unit;
  p4_disconnect : M unit
}.

Inductive CommandType : Set := python | mel.

(** A user script, given the key of the file it is run for.  It acts on
    the world and may raise.  It is run by [exec(command, globals(),
    locals())] inside the loop, with [file], [pending_file],
    [pending_files] and [handler] in scope, so the dict and every record in
    it are its to read and to write: it hands the dict back as it left it.
    The same is granted to a MEL script, which can call into Python. *)
Definition Script : Type := string -> Run unit.

(** The host's document commands and the two script evaluators. *)
Record Host := mkHost {
  cmds_file_open : string -> M unit;                   (* cmds.file(file, open=True, force=True) *)
  cmds_file_save : M unit;                             (* cmds.file(save=True, force=True) *)
  cmds_file_new : M unit;                              (* cmds.file(new=True, force=True) *)
  exec_python : string -> Script;                      (* exec(command, globals(), locals()) *)
  mel_eval : string -> Script                          (* mel.eval(command) *)
}.

(** A script that hands the dict back as it got it. *)
Definition leaves_records (script : Script) : Prop :=
  forall file d w, fst (snd (script file d w)) = d.

(** A host none of whose scripts writes to the records of the run. *)
Definition host_leaves_records (host : Host) : Prop :=
  forall command,
    leaves_records (exec_python host command) /\ leaves_records (mel_eval host command).

Section Reconciliation.

Context (os : OS) (p4 : Perforce).

Definition os_path_exists (f : FS) (path : string) : bool :=
  match f !! path with
  | Some _ => true
  | None => false
  end.

(** [os.access(path, os.W_OK)]: false on a missing path, never raises. *)
Definition os_access_W_OK (f : FS) (path : string) : bool :=
  match f !! path with
  | Some mode => access_W_OK os path mode
  | None => false
  end.

(** [BatchScriptExecutionAccessEntry.check_file_status] *)
Definition check_file_status (f : FS) (path : string) : FileStatus :=
  if os_path_exists f path then
    if os_access_W_OK f path then writable else read_only
  else does_not_exist.


(** [PendingFile.__init__] *)
Definition PendingFile_init (f : FS) (path0 : string) (file_name0 : option string) : PendingFile :=
  mkPendingFile path0 file_name0 (check_file_status f path0) None None false.

(** The part of [BatchScriptExecutionAccessEntry.__init__] that touches the
    file record.  An entry is represented by its file: the back-reference to
    the handler only serves to refresh the buttons. *)
Definition AccessEntry_init (file : PendingFile) : PendingFile :=
  match file_name file with
  | None => set_file_name file (Py.final (Py.split "/"%char (path file)))
  | Some _ => file
  end.

(** [BatchScriptExecutionAccessEntry.refresh] *)
Definition refresh (f : FS) (file : PendingFile) : PendingFile :=
  set_status file
    (if FileStatus_eqb (status file) skip then skip
     else check_file_status f (path file)).

(** [BatchScriptExecutionAccessEntry.skip_file]: the assignment, then
    [self.refresh(self)]. *)
Definition skip_file (f : FS) (file : PendingFile) : PendingFile :=
  let file1 :=
    set_status file
      (if negb (FileStatus_eqb (status file) skip) then skip
       else check_file_status f (path file)) in
  refresh f file1.

Definition refreshM (file : PendingFile) : M PendingFile :=
  f <- get_fs ;; ret (refresh f file).

Definition skip_fileM (file : PendingFile) : M PendingFile :=
  f <- get_fs ;; ret (skip_file f file).

(** [BatchScriptExecutionAccessEntry.is_unix] *)
Definition is_unix : M bool :=
  let os_name := platform_system os in
  if String.eqb os_name "Windows" then ret false
  else if String.eqb os_name "Linux" || String.eqb os_name "Darwin" then ret true
  else raise (RuntimeError ("OS for platform " +:+ os_name +:+ " cannot be determined.")).

(** [os.stat(path).st_mode] *)
Definition os_stat_st_mode (path0 : string) : M Z :=
  fun w => match fs w !! path0 with
           | Some mode => (w, Ok mode)
           | None => (w, Raise (OSError "No such file or directory"))
           end.

(** [os.chmod(path, mode)]: the attempt is traced whether or not it succeeds. *)
Definition os_chmod (path0 : string) (mode : Z) : M unit :=
  emit (ev_chmod path0 mode) ;;;
  fun w => match fs w !! path0 with
           | None => (w, Raise (OSError "No such file or directory"))
           | Some _ =>
               if chmod_allowed os path0
               then (mkWorld (<[path0 := mode]> (fs w)) (trace w), Ok tt)
               else (w, Raise (OSError "Operation not permitted"))
           end.

(** [cmds.error] raises. *)
Definition cmds_error {A} (msg : string) : M A := raise (RuntimeError msg).

(** [BatchScriptExecutionAccessEntry.make_file_writable] *)
Definition make_file_writable (path0 : string) : M unit :=
  unix <- is_unix ;;
  if unix then
    except_OSError
      (st_mode <- os_stat_st_mode path0 ;;
       os_chmod path0 (Z.lor (Z.lor (Z.lor st_mode S_IWUSR) S_IWGRP) S_IWOTH))
      (fun e => cmds_error "Error adding write permissions:")
  else
    except_OSError
      (st_mode <- os_stat_st_mode path0 ;;
       os_chmod path0 (Z.lor st_mode S_IWRITE))
      (fun e => cmds_error "Error removing read-only attribute:").

(** [BatchScriptExecutionAccessEntry.make_writable] *)
Definition make_writable (file : PendingFile) : M PendingFile :=
  f <- get_fs ;;
  if FileStatus_eqb (check_file_status f (path file)) read_only then
    make_file_writable (path file) ;;;
    refreshM file
  else ret file.

(** [config[key]] on the settings read from the p4config file. *)
Fixpoint config_get (config : list (string * string)) (key : string) : M string :=
  match config with
  | [] => raise (KeyError key)
  | (k, v) :: rest => if String.eqb k key then ret v else config_get rest key
  end.

Definition dismiss_dialog (title message : string) : M unit :=
  emit (ev_confirmDialog title message).

(** [BatchScriptExecutionAccessEntry.checkout_file_perforce].  The texts of
    the dialogs are shortened. *)
Definition checkout_file_perforce (path0 : string) : M bool :=
  if negb (has_perforce_installed p4) then ret false
  else
    let p4config := match p4config_optionVar p4 with Some s => s | None => "" end in
    if negb (Py.truthy p4config) then
      dismiss_dialog "Checkout Failed"
        ("Perforce for Maya could not find a p4config file at " +:+ p4config) ;;;
      ret false
    else
      config <- read_p4config p4 p4config ;;
      port <- config_get config "P4PORT" ;;
      client <- config_get config "P4CLIENT" ;;
      user <- config_get config "P4USER" ;;
      fun w =>
        match (p4_connect p4 ;;; emit (ev_p4_edit path0) ;;; p4_run_edit p4 path0) w with
        | (w', Ok _) => (p4_disconnect p4 ;;; ret true) w'
        | (w', Raise (P4Exception msg)) =>
            (dismiss_dialog "Checkout Failed"
               ("Failed to check out: " +:+ path0 +:+ ". Error: " +:+ msg
                +:+ " Hint: "
                +:+ (if Py.contains "not on client." msg
                     then "The file does not exist in perforce, use 'Make Writable'."
                     else "None")) ;;;
             p4_disconnect p4 ;;;
             ret false) w'
        | (w', Raise e) => (p4_disconnect p4 ;;; raise e) w'
        end.

(** [BatchScriptExecutionAccessEntry.checkout_file] *)
Definition checkout_file (file : PendingFile) : M PendingFile :=
  if negb (has_perforce_installed p4) then
    dismiss_dialog "Checkout Failed" "Perforce for Maya not installed." ;;;
    ret file
  else
    f <- get_fs ;;
    if FileStatus_eqb (check_file_status f (path file)) read_only then
      checkout_file_perforce (path file) ;;;
      refreshM file
    else ret file.

(** ** The access handler *)

(** [BatchScriptExecutionAccessHandler.can_continue] *)
Fixpoint can_continue (files : Files) : bool :=
  match files with
  | [] => true
  | (scene, file) :: rest =>
      if FileStatus_eqb (status file) read_only then false
      else can_continue rest
  end.

(** [for key, value in d.items(): body].  The values are objects mutated in
    place: when the body raises, the entries already visited keep their
    updates and the others are as they were. *)
Fixpoint for_items (body : string -> PendingFile -> M PendingFile) (items : Files)
  : World -> World * (Files * Res unit) :=
  fun w =>
    match items with
    | [] => (w, ([], Ok tt))
    | (key, value) :: rest =>
        match body key value w with
        | (w', Ok value') =>
            let '(w'', (rest', r)) := for_items body rest w' in
            (w'', ((key, value') :: rest', r))
        | (w', Raise e) => (w', ((key, value) :: rest, Raise e))
        end
    end.

(** [for x in xs: body], on a list of file records. *)
Fixpoint for_each (body : PendingFile -> M PendingFile) (xs : list PendingFile) : M unit :=
  match xs with
  | [] => ret tt
  | x :: rest => body x ;;; for_each body rest
  end.

(** [iter(files)] where [files] is a [PendingFile]: the class defines neither
    [__iter__] nor [__getitem__], so asking for an iterator raises. *)
Definition not_iterable : Exn := TypeError "'PendingFile' object is not iterable".

Definition iter_PendingFile (files : PendingFile) : M (list PendingFile) :=
  raise not_iterable.

(** [BatchScriptExecutionAccessHandler.press_refresh_button]: the handler's
    [files] maps each path to one [PendingFile], and the inner loop iterates
    over that value. *)
Definition press_refresh_button (files : Files) : World -> World * (Files * Res unit) :=
  for_items
    (fun scene files0 =>
       inner <- iter_PendingFile files0 ;;
       for_each refreshM inner ;;;
       ret files0)
    files.

(** [BatchScriptExecutionAccessHandler.press_checkout_button] *)
Definition press_checkout_button (files : Files) : World -> World * (Files * Res unit) :=
  fun w =>
    match for_items
            (fun scene files0 =>
               inner <- iter_PendingFile files0 ;;
               for_each checkout_file inner ;;;
               ret files0)
            files w with
    | (w', (files', Ok _)) => press_refresh_button files' w'
    | r => r
    end.

(** The bulk operations in the specification's words ([refreshAll],
    [checkoutAll]): the entry action applied to every entry. *)
Definition spec_refreshAll (files : Files) : World -> World * (Files * Res unit) :=
  for_items (fun scene file => refreshM file) files.

Definition spec_checkoutAll (files : Files) : World -> World * (Files * Res unit) :=
  for_items (fun scene file => checkout_file file) files.

(** ** The execution loop of [execute_script] *)

(** Are the keys of [d] still [keys0], in that order? *)
Fixpoint same_keys (keys0 : list string) (d : Files) : bool :=
  match keys0, d with
  | [], [] => true
  | key0 :: keys0', (key, _) :: rest => String.eqb key0 key && same_keys keys0' rest
  | _, _ => false
  end.

Definition changed_during_iteration (keys0 : list string) (d : Files) : Exn :=
  RuntimeError (if Nat.eqb (length d) (length keys0)
                then "dictionary keys changed during iteration"
                else "dictionary changed size during iteration").

(** [for key, value in d.items(): body], with a body that can reach the
    dict.  The iterator walks the dict by position and yields the record
    that is there when it comes to it; [keys0] are the keys at the start,
    [todo] the number of items still to come, [k] the next position.  Each
    time it is asked for an item, also for the one after the last, it raises
    [RuntimeError] when the body has changed the keys of the dict.  (CPython
    tells a change of size at once.  After keys were replaced at equal size
    it raises later or walks on in an order of its own; the loop here stops
    at once in that case too.) *)
Fixpoint for_dict_items_from (body : nat -> string -> PendingFile -> Run unit)
    (keys0 : list string) (todo k : nat) : Run unit :=
  fun d w =>
    if negb (same_keys keys0 d) then (w, (d, Raise (changed_during_iteration keys0 d)))
    else
      match todo with
      | O => (w, (d, Ok tt))
      | S todo' =>
          match nth_error d k with
          | None => (w, (d, Ok tt))
          | Some (key, value) =>
              match body k key value d w with
              | (w', (d', Ok _)) => for_dict_items_from body keys0 todo' (S k) d' w'
              | (w', (d', Raise e)) => (w', (d', Raise e))
              end
          end
      end.

Definition for_dict_items (body : nat -> string -> PendingFile -> Run unit) : Run unit :=
  fun d w => for_dict_items_from body (map fst d) (length d) 0 d w.

Context (host : Host).

(** The body of [for file, pending_file in handler.files.items()];
    [pending_file] is the record at position [k] of the dict. *)
Definition execute_script_body (command_type : CommandType) (command : string)
    (wants_save : bool) (k : nat) (file : string) (pending_file : PendingFile) : Run unit :=
  (if negb (FileStatus_eqb (status pending_file) writable) then
     (if FileStatus_eqb (status pending_file) skip then
        assign k (fun v => set_result v file_skipped)
      else if FileStatus_eqb (status pending_file) does_not_exist then
        assign k (fun v => set_result v file_not_found)
      else if FileStatus_eqb (status pending_file) read_only then
        assign k (fun v => set_result v file_read_only)
      else run_ret tt) ;;;
     assign k (fun v => set_warning v
                          ("File could not be processed due to file state: "
                           +:+ FileStatus_str (status pending_file)))
   else
     f <- lift get_fs ;;
     let status0 := check_file_status f file in
     if negb (FileStatus_eqb status0 writable) then
       f' <- lift get_fs ;;
       let tampered_missing := negb (os_path_exists f' file) in
       assign k (fun v => set_result v
                            (if tampered_missing then file_missing else file_tampered))
     else
       lift (cmds_file_open host file) ;;;
       match command_type with
       | python => exec_python host command file
       | mel => mel_eval host command file
       end ;;;
       lift (if wants_save then cmds_file_save host else ret tt))%run.

(** The loop, then closing the last scene and the final dialog. *)
Definition execute_script_run (command_type : CommandType) (command : string)
    (wants_save : bool) (files : Files) : World -> World * (Files * Res unit) :=
  fun w =>
    match for_dict_items (execute_script_body command_type command wants_save) files w with
    | (w', (files', Ok _)) =>
        match (cmds_file_new host ;;;
               dismiss_dialog "Batch Execute Script Results" "Script execution complete.") w' with
        | (w'', r) => (w'', (files', r))
        end
    | r => r
    end.


(** [pending_files[file_path] = PendingFile(file_path)] for every path. *)
Definition build_pending_files (f : FS) (maya_files : list string) : Files :=
  fold_left (fun pending_files file_path =>
               dict_set pending_files file_path (PendingFile_init f file_path None))
            maya_files [].

End Reconciliation.

(** ** The directory scanner *)

Record DirEntry := mkDirEntry {
  entry_name : string;
  entry_path : string;
  is_file : bool;
  is_dir : bool
}.

Definition backslash : ascii := Ascii.ascii_of_nat 92.

Section Scanner.

(** [os.scandir] and [os.path.normpath].  [os.scandir] raises [OSError] on
    a path it cannot list (not there, not a directory, no permission), and
    nothing in the scan handles it.  A directory answers the same both times
    it is asked. *)
Context (scandir : string -> Res (list DirEntry)) (normpath : string -> string).

Definition normalized_path (entry : DirEntry) : string :=
  Py.replace_char backslash "/"%char (normpath (entry_path entry)).

(** The first loop of [do_gather_maya_files]. *)
Fixpoint gather_here (entries : list DirEntry) : list string :=
  match entries with
  | [] => []
  | entry :: rest =>
      if is_file entry
         && (Py.endswith (entry_name entry) ".mb" || Py.endswith (entry_name entry) ".ma")
      then normalized_path entry :: gather_here rest
      else gather_here rest
  end.

(** The second loop: [maya_files.extend(...)] with the recursive call [g]
    for each directory entry; a call that raises ends the scan. *)
Fixpoint gather_below (g : string -> Res (list string)) (entries : list DirEntry)
    (maya_files : list string) : Res (list string) :=
  match entries with
  | [] => Ok maya_files
  | entry :: rest =>
      if is_dir entry then
        match g (normalized_path entry) with
        | Ok found => gather_below g rest (maya_files ++ found)
        | Raise e => Raise e
        end
      else gather_below g rest maya_files
  end.

(** [do_gather_maya_files] at a depth that is not negative; [hops] is the
    depth, and the recursive call is at [hops - 1]. *)
Fixpoint gather_to_depth (hops : nat) (directory : string) : Res (list string) :=
  match scandir directory with
  | Raise e => Raise e
  | Ok entries =>
      match hops with
      | O => Ok (gather_here entries)
      | S hops' => gather_below (gather_to_depth hops') entries (gather_here entries)
      end
  end.

(** [do_gather_maya_files] *)
Definition do_gather_maya_files (directory : string) (recursion_depth : Z)
    : Res (list string) :=
  if recursion_depth <? 0 then Ok []
  else gather_to_depth (Z.to_nat recursion_depth) directory.

(** A name with one of the two Maya extensions. *)
Definition is_maya_name (name : string) : Prop :=
  Py.endswith name ".mb" = true \/ Py.endswith name ".ma" = true.

(** The immediate subdirectories of a listing, as the recursion names them. *)
Definition subdirectories (entries : list DirEntry) : list string :=
  map normalized_path (List.filter is_dir entries).

(** [within k d d']: [d'] is reached from [d] in at most [k] hops, each hop
    from a directory that lists to one of its subdirectories. *)
Inductive within : nat -> string -> string -> Prop :=
| within_here k d : within k d d
| within_hop k d entries sub d' :
    scandir d = Ok entries -> In sub (subdirectories entries) ->
    within k sub d' -> within (S k) d d'.


End Scanner.

(** ** The filter stage of [execute_script] *)

(** [file_type] after [if file_type: ...]: the empty text stays as it is
    (false), anything else becomes the list of its comma-separated parts. *)
Definition parse_file_type (text : string) : option (list string) :=
  if Py.truthy text
  then Some (Py.split ","%char (Py.remove_char " "%char text))
  else None.

Definition file_type_truthy (file_type : option (list string)) : bool :=
  match file_type with
  | Some (_ :: _) => true
  | _ => false
  end.

Definition file_type_has (file_type : option (list string)) (ext : string) : bool :=
  match file_type with
  | Some l => Py.member ext l
  | None => false
  end.

(** Which statement of the loop body ends the iteration for a file. *)
Inductive Verdict : Set :=
| appended               (* filtered_files.append(file) *)
| removed_by_prefix      (* first  removed_files.append(file); continue *)
| removed_by_suffix      (* second removed_files.append(file); continue *)
| dropped_by_string      (* continue after the filter_string test *)
| dropped_by_type.       (* continue after the file_type test *)

Definition Verdict_eqb (a b : Verdict) : bool :=
  match a, b with
  | appended, appended
  | removed_by_prefix, removed_by_prefix
  | removed_by_suffix, removed_by_suffix
  | dropped_by_string, dropped_by_string
  | dropped_by_type, dropped_by_type => true
  | _, _ => false
  end.

(** The name the tests look at: [os.path.basename(file).split(".")[0]]. *)
Definition tested_name (file : string) : string :=
  Py.first (Py.split "."%char (Py.basename file)).

(** [os.path.basename(file).split(".")[-1]] *)
Definition tested_extension (file : string) : string :=
  Py.final (Py.split "."%char (Py.basename file)).

(** The four tests, as the conditions of the [if] statements. *)
Definition prefix_test (prefix file : string) : bool :=
  Py.truthy prefix && Py.startswith (tested_name file) prefix.

Definition suffix_test (suffix file : string) : bool :=
  Py.truthy suffix && Py.endswith (tested_name file) suffix.

Definition string_test (filter_string file : string) : bool :=
  Py.truthy filter_string && Py.contains filter_string (tested_name file).

Definition type_test (file_type : option (list string)) (file : string) : bool :=
  file_type_truthy file_type && negb (file_type_has file_type (tested_extension file)).

(** One iteration of the filter loop. *)
Definition filter_verdict (prefix suffix filter_string : string)
    (file_type : option (list string)) (file : string) : Verdict :=
  if prefix_test prefix file then removed_by_prefix
  else if suffix_test suffix file then removed_by_suffix
  else if string_test filter_string file then dropped_by_string
  else if type_test file_type file then dropped_by_type
  else appended.

(** The loop: [(filtered_files, removed_files)]. *)
Fixpoint filter_files (prefix suffix filter_string : string)
    (file_type : option (list string)) (maya_files filtered_files removed_files : list string)
  : list string * list string :=
  match maya_files with
  | [] => (filtered_files, removed_files)
  | file :: rest =>
      match filter_verdict prefix suffix filter_string file_type file with
      | appended =>
          filter_files prefix suffix filter_string file_type rest
            (filtered_files ++ [file]) removed_files
      | removed_by_prefix | removed_by_suffix =>
          filter_files prefix suffix filter_string file_type rest
            filtered_files (removed_files ++ [file])
      | dropped_by_string | dropped_by_type =>
          filter_files prefix suffix filter_string file_type rest
            filtered_files removed_files
      end
  end.

(** The filter stage on the text of the four settings fields. *)
Definition filter_stage (prefix suffix filter_string file_type_text : string)
    (maya_files : list string) : list string :=
  fst (filter_files prefix suffix filter_string (parse_file_type file_type_text)
         maya_files [] []).

(** The file is excluded: it is not handed on to the confirmation. *)
Definition excluded (prefix suffix filter_string file_type_text file : string) : bool :=
  negb (Py.member file (filter_stage prefix suffix filter_string file_type_text [file])).

(** The specification's name for the suffix test: the basename minus its
    extension, the extension being what follows the last dot. *)
Fixpoint spec_strip_extension (basename : string) : string :=
  match basename with
  | EmptyString => ""
  | String c t =>
      if Ascii.eqb c "."%char && Py.lacks "."%char t then ""
      else String c (spec_strip_extension t)
  end.

Definition spec_suffix_match (suffix file : string) : bool :=
  Py.endswith (spec_strip_extension (Py.basename file)) suffix.

(** ** Concrete worlds used in the examples *)

(** The process owns its files: write access is the owner write bit. *)
Definition os_owner : OS :=
  mkOS "Linux" (fun _ mode => Z.testbit mode 7) (fun _ => true).

Definition mode_rw : Z := 420.   (* 0o644 *)
Definition mode_ro : Z := 292.   (* 0o444 *)

Definition fs_demo : FS :=
  <["/proj/a.ma" := mode_rw]> (<["/proj/b.mb" := mode_ro]> ∅).

(** [a.ma] deleted, respectively made read-only, behind the dialog's back. *)
Definition fs_a_deleted : FS := delete "/proj/a.ma" fs_demo.
Definition fs_a_locked : FS := <["/proj/a.ma" := mode_ro]> fs_demo.
(** [b.mb] checked out by hand. *)
Definition fs_b_unlocked : FS := <["/proj/b.mb" := mode_rw]> fs_demo.

Definition file_a : PendingFile := PendingFile_init os_owner fs_demo "/proj/a.ma" None.
Definition file_b : PendingFile := PendingFile_init os_owner fs_demo "/proj/b.mb" None.
Definition file_c : PendingFile := PendingFile_init os_owner fs_demo "/proj/c.ma" None.

(** A host that records what it is asked to do; its script succeeds and
    leaves the records alone. *)
Definition host_quiet : Host :=
  mkHost (fun file => emit (ev_file_open file))
         (emit ev_file_save)
         (emit ev_file_new)
         (fun command file => lift (emit (ev_exec command)))
         (fun command file => lift (emit (ev_mel_eval command))).

(** The same host with a script that raises. *)
Definition host_raising : Host :=
  mkHost (fun file => emit (ev_file_open file))
         (emit ev_file_save)
         (emit ev_file_new)
         (fun command file => lift (emit (ev_exec command) ;;; raise (ScriptError "boom")))
         (fun command file => lift (emit (ev_mel_eval command) ;;; raise (ScriptError "boom"))).

(** [pending_files[key].<attribute> = ...], as a script may write it. *)
Definition write_key (key : string) (f : PendingFile -> PendingFile) (d : Files) : Files :=
  map (fun kv => if String.eqb (fst kv) key then (fst kv, f (snd kv)) else kv) d.

(** A host whose script writes to the record of the file it runs on:
    [pending_file.result = FileResult.success]. *)
Definition host_reporting : Host :=
  mkHost (fun file => emit (ev_file_open file))
         (emit ev_file_save)
         (emit ev_file_new)
         (fun command file d w =>
            (mkWorld (fs w) (trace w ++ [ev_exec command]),
             (write_key file (fun v => set_result v success) d, Ok tt)))
         (fun command file => lift (emit (ev_mel_eval command))).


(** A host whose script adds a record to the dict:
    [pending_files['/tmp/x.ma'] = PendingFile('/tmp/x.ma')]. *)
Definition host_adding : Host :=
  mkHost (fun file => emit (ev_file_open file))
         (emit ev_file_save)
         (emit ev_file_new)
         (fun command file d w =>
            (mkWorld (fs w) (trace w ++ [ev_exec command]),
             (dict_set d "/tmp/x.ma" (PendingFile_init os_owner (fs w) "/tmp/x.ma" None),
              Ok tt)))
         (fun command file => lift (emit (ev_mel_eval command))).

(** A second writable scene next to [a.ma]. *)
Definition fs_two : FS := <["/proj/d.ma" := mode_rw]> fs_demo.
Definition file_d : PendingFile := PendingFile_init os_owner fs_two "/proj/d.ma" None.

Definition p4_absent : Perforce :=
  mkPerforce false None (fun _ => raise (OSError "no p4config")) (ret tt) (fun _ => ret tt) (ret tt).

(** A small tree: [/proj] holds two scenes, a text file and [sub]; [sub]
    holds one scene and [deep]; [deep] holds one scene. *)
Definition scandir_demo (directory : string) : Res (list DirEntry) :=
  if String.eqb directory "/proj" then
    Ok [ mkDirEntry "a.ma" "/proj/a.ma" true false;
         mkDirEntry "notes.txt" "/proj/notes.txt" true false;
         mkDirEntry "sub" "/proj/sub" false true;
         mkDirEntry "b.mb" "/proj/b.mb" true false ]
  else if String.eqb directory "/proj/sub" then
    Ok [ mkDirEntry "c.ma" "/proj/sub/c.ma" true false;
         mkDirEntry "deep" "/proj/sub/deep" false true ]
  else if String.eqb directory "/proj/sub/deep" then
    Ok [ mkDirEntry "d.mb" "/proj/sub/deep/d.mb" true false ]
  else Raise (OSError "[Errno 2] No such file or directory").

Definition normpath_id (p : string) : string := p.



(** ** The p4config reader *)

Module PyText.

(** Whitespace as [str.strip()] sees it, among the code points 0 to 255:
    tab to carriage return, the four separators, the space, next line
    (U+0085) and the no-break space (U+00A0). *)
Definition is_space (c : ascii) : bool :=
  let n := nat_of_ascii c in
  (n =? 32)%nat
  || ((9 <=? n)%nat && (n <=? 13)%nat)
  || ((28 <=? n)%nat && (n <=? 31)%nat)
  || (n =? 133)%nat
  || (n =? 160)%nat.

(** [s.lstrip()] *)
Fixpoint lstrip (s : string) : string :=
  match s with
  | EmptyString => ""
  | String c t => if is_space c then lstrip t else s
  end.

(** [s.rstrip()] *)
Fixpoint rstrip (s : string) : string :=
  match s with
  | EmptyString => ""
  | String c t =>
      match rstrip t with
      | EmptyString => if is_space c then "" else String c ""
      | t' => String c t'
      end
  end.

(** [s.strip()] *)
Definition strip (s : string) : string := rstrip (lstrip s).

(** [s.split(sep, 1)] for a one-character separator. *)
Fixpoint split1 (sep : ascii) (s : string) : list string :=
  match s with
  | EmptyString => [""]
  | String c t =>
      if Ascii.eqb c sep then [""; t]
      else match split1 sep t with
           | h :: r => String c h :: r
           | [] => [String c ""]
           end
  end.

End PyText.

(** The [settings] dict of [read_p4config], in insertion order. *)
Abbreviation Settings := (list (string * string)).

(** [settings[k] = v] *)
Fixpoint settings_set (settings : Settings) (k v : string) : Settings :=
  match settings with
  | [] => [(k, v)]
  | (k', v') :: rest =>
      if String.eqb k' k then (k', v) :: rest
      else (k', v') :: settings_set rest k v
  end.

(** One iteration of [for line in file] in [read_p4config].  [None] stands
    for the [ValueError] of [key, value = ...] on a list that does not have
    two elements. *)
Definition read_p4config_line (settings : Settings) (line : string) : option Settings :=
  if Py.contains "=" line then
    match PyText.split1 "="%char (PyText.strip line) with
    | [key; value] => Some (settings_set settings (PyText.strip key) (PyText.strip value))
    | _ => None
    end
  else Some settings.

(** The loop of [read_p4config] over the lines of the opened file. *)
Fixpoint read_p4config_lines (settings : Settings) (lines : list string) : option Settings :=
  match lines with
  | [] => Some settings
  | line :: rest =>
      match read_p4config_line settings line with
      | Some settings' => read_p4config_lines settings' rest
      | None => None
      end
  end.

(** The file as [key=value] lines, one per setting. *)
Definition p4config_line_of (kv : string * string) : string :=
  fst kv +:+ "=" +:+ snd kv +:+ String (Ascii.ascii_of_nat 10) "".

(** ** The confirmation dialog as a session *)

(** [BatchScriptExecutionAccessHandler]: its [files], its [result], and
    whether the modal [layoutDialog] is still up. *)
Record Handler := mkHandler {
  handler_files : Files;
  handler_result : bool;
  dialog_open : bool
}.

(** What the user can press: the four buttons of the entry of a scene and
    the five buttons below the list. *)
Inductive Press : Set :=
| entry_checkout (scene : string)
| entry_make_writable (scene : string)
| entry_skip (scene : string)
| entry_refresh (scene : string)
| checkout_all
| refresh_all
| open_directory
| continue
| abort.

Section Dialog.

Context (os : OS) (p4 : Perforce).

(** The callback of a button of the entry of [scene], on that entry's file. *)
Fixpoint on_entry (scene : string) (action : PendingFile -> M PendingFile) (files : Files)
  : World -> World * (Files * Res unit) :=
  fun w =>
    match files with
    | [] => (w, ([], Ok tt))
    | (key, value) :: rest =>
        if String.eqb key scene then
          match action value w with
          | (w', Ok value') => (w', ((key, value') :: rest, Ok tt))
          | (w', Raise e) => (w', ((key, value) :: rest, Raise e))
          end
        else
          let '(w', (rest', r)) := on_entry scene action rest w in
          (w', ((key, value) :: rest', r))
    end.

(** [BatchScriptExecutionAccessHandler.press_continue_button] *)
Definition press_continue_button (h : Handler) : Handler :=
  if negb (can_continue (handler_files h)) then h
  else mkHandler (handler_files h) true false.

(** [BatchScriptExecutionAccessHandler.press_abort_button] *)
Definition press_abort_button (h : Handler) : Handler :=
  mkHandler (handler_files h) false false.

Definition with_files (h : Handler) (r : World * (Files * Res unit))
  : World * (Handler * Res unit) :=
  let '(w', (files', res)) := r in
  (w', (mkHandler files' (handler_result h) (dialog_open h), res)).

(** One press.  [open_directory] starts the file manager of the platform
    and reaches nothing the program reads. *)
Definition press (p : Press) (h : Handler) : World -> World * (Handler * Res unit) :=
  fun w =>
    match p with
    | entry_checkout scene => with_files h (on_entry scene (checkout_file os p4) (handler_files h) w)
    | entry_make_writable scene => with_files h (on_entry scene (make_writable os) (handler_files h) w)
    | entry_skip scene => with_files h (on_entry scene (skip_fileM os) (handler_files h) w)
    | entry_refresh scene => with_files h (on_entry scene (refreshM os) (handler_files h) w)
    | checkout_all => with_files h (press_checkout_button os p4 (handler_files h) w)
    | refresh_all => with_files h (press_refresh_button os (handler_files h) w)
    | open_directory => (w, (h, Ok tt))
    | continue => (w, (press_continue_button h, Ok tt))
    | abort => (w, (press_abort_button h, Ok tt))
    end.

(** The presses the dialog receives while it is up.  A callback that raises
    is reported by the host and the dialog stays up, with what the callback
    had done so far. *)
Fixpoint dialog_session (presses : list Press) (h : Handler) (w : World) : World * Handler :=
  match presses with
  | [] => (w, h)
  | p :: rest =>
      if dialog_open h then
        let '(w', (h', _)) := press p h w in dialog_session rest h' w'
      else (w, h)
  end.

(** [spawn_ui]: one entry per file. *)
Definition spawn_entries (files : Files) : Files :=
  map (fun kv => (fst kv, AccessEntry_init (snd kv))) files.

(** [BatchScriptExecutionAccessHandler.__init__] *)
Definition Handler_init (files : Files) (presses : list Press) (w : World) : World * Handler :=
  match files with
  | [] => (w, mkHandler files false false)
  | _ :: _ => dialog_session presses (mkHandler (spawn_entries files) false true) w
  end.

Context (host : Host).

(** [execute_script] from [pending_files = {}] on: build the records, run
    the dialog, stop if it was not confirmed, else run the loop. *)
Definition execute_script_confirmed (presses : list Press) (command_type : CommandType)
    (command : string) (wants_save : bool) (maya_files : list string)
  : World -> World * (Files * Res unit) :=
  fun w =>
    let pending_files := build_pending_files os (fs w) maya_files in
    let '(w1, handler) := Handler_init pending_files presses w in
    if negb (handler_result handler) then (w1, (handler_files handler, Ok tt))
    else execute_script_run os host command_type command wants_save (handler_files handler) w1.

(** [execute_script] from the check of the scan result on.  [answer] is
    what the confirmation returns; the text of that dialog is shortened. *)
Definition execute_script_after_gather (prefix suffix filter_string file_type_text : string)
    (answer : string) (presses : list Press) (command_type : CommandType)
    (command : string) (wants_save : bool) (maya_files : list string)
  : World -> World * (Files * Res unit) :=
  fun w =>
    match maya_files with
    | [] =>
        (fst (dismiss_dialog "Batch Execute Script Failed" "Directory is empty" w), ([], Ok tt))
    | _ :: _ =>
        match filter_stage prefix suffix filter_string file_type_text maya_files with
        | [] =>
            (fst (dismiss_dialog "Batch Execute Script Failed"
                    "No files to process after filtering" w), ([], Ok tt))
        | filtered =>
            let w0 := fst (dismiss_dialog "Confirm Batch Script Execution"
                             "Continue script execution?" w) in
            if String.eqb answer "Abort" then (w0, ([], Ok tt))
            else execute_script_confirmed presses command_type command wants_save filtered w0
        end
    end.

End Dialog.

(** Two collections with the same keys in the same order, whose records
    differ at most in the status. *)
Definition up_to_status (files files' : Files) : Prop :=
  Forall2 (fun kv kv' => fst kv' = fst kv /\ exists s, snd kv' = set_status (snd kv) s)
          files files'.

(** A provider whose server refuses the edit. *)
Definition p4_refusing : Perforce :=
  mkPerforce true (Some "/proj/.p4config")
    (fun _ => ret [("P4PORT", "1.1.1.1:1666"); ("P4CLIENT", "ws"); ("P4USER", "me")])
    (ret tt)
    (fun _ => raise (P4Exception "file(s) not on client."))
    (ret tt).

(** A p4config without [P4USER]. *)
Definition p4_no_user : Perforce :=
  mkPerforce true (Some "/proj/.p4config")
    (fun _ => ret [("P4PORT", "1.1.1.1:1666"); ("P4CLIENT", "ws")])
    (ret tt) (fun _ => ret tt) (ret tt).

Definition world_demo : World := mkWorld fs_demo [].

(** [world_demo] after [b.mb] was made writable. *)
Definition world_b_writable : World :=
  mkWorld (<["/proj/b.mb" := 438]> fs_demo) [ev_chmod "/proj/b.mb" 438].

Definition p4config_demo : Settings :=
  [("P4PORT", "1.1.1.1:1666"); ("P4CLIENT", "ws"); ("P4USER", "me")].

(** * Properties *)

(** ** Enumerations *)

Lemma FileStatus_eqb_eq (a b : FileStatus) : FileStatus_eqb a b = true <-> a = b.
Proof. destruct a, b; simpl; split; intro H; try reflexivity; discriminate H. Qed.

Lemma FileStatus_eqb_neq (a b : FileStatus) : FileStatus_eqb a b = false <-> a <> b.
Proof.
  destruct a, b; simpl; split; intro H;
    try reflexivity; try discriminate H; try (intro E; discriminate E);
    exfalso; apply H; reflexivity.
Qed.

Lemma FileStatus_eqb_refl (a : FileStatus) : FileStatus_eqb a a = true.
Proof. destruct a; reflexivity. Qed.

(** ** The classifier *)

Section ClassifierFacts.

Context (os : OS).

Lemma check_file_status_missing (f : FS) (p : string) :
  f !! p = None -> check_file_status os f p = does_not_exist.
Proof. intros H. unfold check_file_status, os_path_exists. rewrite H. reflexivity. Qed.

Lemma check_file_status_present (f : FS) (p : string) (mode : Z) :
  f !! p = Some mode ->
  check_file_status os f p = if access_W_OK os p mode then writable else read_only.
Proof.
  intros H. unfold check_file_status, os_path_exists, os_access_W_OK.
  rewrite H. reflexivity.
Qed.

Lemma check_file_status_never_skip (f : FS) (p : string) :
  check_file_status os f p <> skip.
Proof.
  unfold check_file_status.
  destruct (os_path_exists f p); [destruct (os_access_W_OK os f p)|]; discriminate.
Qed.

(** The classification reads nothing but the entry of the path. *)
Lemma check_file_status_local (f f' : FS) (p : string) :
  f !! p = f' !! p -> check_file_status os f p = check_file_status os f' p.
Proof.
  intros H. unfold check_file_status, os_path_exists, os_access_W_OK.
  rewrite H. reflexivity.
Qed.

(** C7. [check_file_status] is a function of the file system and the path
    alone, defined on every path: it answers [does_not_exist] for a path
    that is not on disk (no exception), [writable] for a path that exists
    and that the process may write, and [read_only] for a path that exists
    and that the process may not write. *)
Theorem check_file_status_classifies (f : FS) (p : string) :
  (f !! p = None -> check_file_status os f p = does_not_exist) /\
  (forall mode, f !! p = Some mode -> access_W_OK os p mode = true ->
                check_file_status os f p = writable) /\
  (forall mode, f !! p = Some mode -> access_W_OK os p mode = false ->
                check_file_status os f p = read_only) /\
  (os_path_exists f p = false <-> check_file_status os f p = does_not_exist) /\
  (os_path_exists f p = true /\ os_access_W_OK os f p = true
     <-> check_file_status os f p = writable) /\
  (os_path_exists f p = true /\ os_access_W_OK os f p = false
     <-> check_file_status os f p = read_only).
Proof.
  split; [apply check_file_status_missing|].
  split; [intros mode H Hw; rewrite (check_file_status_present _ _ _ H), Hw; reflexivity|].
  split; [intros mode H Hw; rewrite (check_file_status_present _ _ _ H), Hw; reflexivity|].
  unfold check_file_status.
  destruct (os_path_exists f p), (os_access_W_OK os f p);
    repeat split; intros; try reflexivity; try discriminate;
    match goal with H : _ /\ _ |- _ => destruct H; discriminate end.
Qed.

End ClassifierFacts.

Lemma check_file_status_classifies_witness :
  check_file_status os_owner fs_demo "/proj/c.ma" = does_not_exist /\
  check_file_status os_owner fs_demo "/proj/a.ma" = writable /\
  check_file_status os_owner fs_demo "/proj/b.mb" = read_only.
Proof.
  split; [|split].
  - apply (check_file_status_classifies os_owner fs_demo "/proj/c.ma"). reflexivity.
  - apply (check_file_status_classifies os_owner fs_demo "/proj/a.ma") with (mode := mode_rw);
      reflexivity.
  - apply (check_file_status_classifies os_owner fs_demo "/proj/b.mb") with (mode := mode_ro);
      reflexivity.
Defined.

(** ** Refresh and skip *)

Section EntryFacts.

Context (os : OS).

Lemma set_status_same (file : PendingFile) : set_status file (status file) = file.
Proof. destruct file; reflexivity. Qed.

Lemma refresh_skipped (f : FS) (file : PendingFile) :
  status file = skip -> refresh os f file = file.
Proof.
  intros H. unfold refresh. rewrite H. simpl. rewrite <- H. apply set_status_same.
Qed.

Lemma refresh_not_skipped (f : FS) (file : PendingFile) :
  status file <> skip ->
  refresh os f file = set_status file (check_file_status os f (path file)).
Proof.
  intros H. unfold refresh.
  apply FileStatus_eqb_neq in H. rewrite H. reflexivity.
Qed.

Lemma refreshM_run (file : PendingFile) (w : World) :
  refreshM os file w = (w, Ok (refresh os (fs w) file)).
Proof. reflexivity. Qed.

(** C8. On a skipped file [refresh] changes nothing, whatever the file
    system says; on any other file it sets the status to the classification
    of the path and touches no other field.  The dialog's action leaves the
    world as it was. *)
Theorem refresh_keeps_skip (f : FS) (file : PendingFile) :
  (status file = skip -> refresh os f file = file) /\
  (status file = skip -> status (refresh os f file) = skip) /\
  (status file <> skip ->
     status (refresh os f file) = check_file_status os f (path file)) /\
  (status file <> skip ->
     refresh os f file = set_status file (check_file_status os f (path file))) /\
  (forall w, refreshM os file w = (w, Ok (refresh os (fs w) file))).
Proof.
  split; [apply refresh_skipped|].
  split; [intros H; rewrite (refresh_skipped _ _ H); exact H|].
  split; [intros H; rewrite (refresh_not_skipped _ _ H); reflexivity|].
  split; [apply refresh_not_skipped|].
  intros w. apply refreshM_run.
Qed.

Lemma skip_file_on_unskipped (f : FS) (file : PendingFile) :
  status file <> skip -> skip_file os f file = set_status file skip.
Proof.
  intros H. unfold skip_file.
  apply FileStatus_eqb_neq in H. rewrite H. simpl.
  apply refresh_skipped. reflexivity.
Qed.

Lemma skip_file_on_skipped (f : FS) (file : PendingFile) :
  status file = skip ->
  skip_file os f file = set_status file (check_file_status os f (path file)).
Proof.
  intros H. unfold skip_file. rewrite H. simpl.
  rewrite refresh_not_skipped by (simpl; apply check_file_status_never_skip).
  reflexivity.
Qed.

(** C9. [skip_file] sets a file that is not skipped to [skip] and a skipped
    file to the classification of its path.  Two calls in a row on a file
    that was not skipped leave it at the classification of its path (the
    one both calls see when the path's entry did not change in between),
    and leave the record itself unchanged when its status was that
    classification. *)
Theorem skip_file_toggles (f1 f2 : FS) (file : PendingFile) :
  (status file <> skip -> status (skip_file os f1 file) = skip) /\
  (status file = skip ->
     status (skip_file os f1 file) = check_file_status os f1 (path file)) /\
  (status file <> skip -> f1 !! path file = f2 !! path file ->
     status (skip_file os f2 (skip_file os f1 file))
       = check_file_status os f1 (path file)) /\
  (status file = check_file_status os f1 (path file) ->
     f1 !! path file = f2 !! path file ->
     skip_file os f2 (skip_file os f1 file) = file).
Proof.
  split; [intros H; rewrite (skip_file_on_unskipped _ _ H); reflexivity|].
  split; [intros H; rewrite (skip_file_on_skipped _ _ H); reflexivity|].
  split.
  - intros H Hfs. rewrite (skip_file_on_unskipped _ _ H).
    rewrite skip_file_on_skipped by reflexivity. simpl.
    symmetry. apply check_file_status_local. exact Hfs.
  - intros Hs Hfs.
    assert (H : status file <> skip)
      by (rewrite Hs; apply check_file_status_never_skip).
    rewrite (skip_file_on_unskipped _ _ H).
    rewrite skip_file_on_skipped by reflexivity. simpl.
    rewrite <- (check_file_status_local os f1 f2 _ Hfs), <- Hs.
    destruct file; reflexivity.
Qed.

End EntryFacts.

Lemma refresh_keeps_skip_witness :
  refresh os_owner fs_b_unlocked (set_status file_b skip) = set_status file_b skip /\
  status (refresh os_owner fs_b_unlocked file_b) = writable.
Proof.
  split.
  - apply (refresh_keeps_skip os_owner fs_b_unlocked (set_status file_b skip)). reflexivity.
  - apply (refresh_keeps_skip os_owner fs_b_unlocked file_b). discriminate.
Defined.

Lemma skip_file_toggles_witness :
  status (skip_file os_owner fs_demo file_a) = skip /\
  status (skip_file os_owner fs_a_locked (set_status file_a skip)) = read_only /\
  skip_file os_owner fs_demo (skip_file os_owner fs_demo file_a) = file_a.
Proof.
  split; [|split].
  - apply (skip_file_toggles os_owner fs_demo fs_demo file_a). discriminate.
  - apply (skip_file_toggles os_owner fs_a_locked fs_a_locked (set_status file_a skip)).
    reflexivity.
  - apply (skip_file_toggles os_owner fs_demo fs_demo file_a); reflexivity.
Defined.

(** ** The gate *)

Lemma can_continue_cons (scene : string) (file : PendingFile) (rest : Files) :
  can_continue ((scene, file) :: rest)
  = negb (FileStatus_eqb (status file) read_only) && can_continue rest.
Proof. simpl. destruct (FileStatus_eqb (status file) read_only); reflexivity. Qed.

Lemma can_continue_true (files : Files) :
  can_continue files = true <-> Forall (fun kv => status (snd kv) <> read_only) files.
Proof.
  induction files as [|[scene file] rest IH].
  - split; [constructor | reflexivity].
  - rewrite can_continue_cons, andb_true_iff, negb_true_iff, FileStatus_eqb_neq, IH.
    split.
    + intros [H1 H2]. constructor; assumption.
    + intros H. inversion H; subst. split; assumption.
Qed.

Lemma can_continue_false (files : Files) :
  can_continue files = false <-> Exists (fun kv => status (snd kv) = read_only) files.
Proof.
  induction files as [|[scene file] rest IH].
  - split; [discriminate | intros H; inversion H].
  - rewrite can_continue_cons, andb_false_iff, negb_false_iff, FileStatus_eqb_eq, IH.
    split.
    + intros [H|H]; [left | right]; assumption.
    + intros H. inversion H; subst; [left | right]; assumption.
Qed.

(** C3. [can_continue] is true exactly when no entry is [read_only], and
    false exactly when some entry, which is then not a skipped one, is
    [read_only]; it is true when every entry is missing, and when every
    entry is writable or skipped. *)
Theorem can_continue_gate (files : Files) :
  (can_continue files = true
     <-> Forall (fun kv => status (snd kv) <> read_only) files) /\
  (can_continue files = false
     <-> Exists (fun kv => status (snd kv) <> skip /\ status (snd kv) = read_only) files) /\
  (Forall (fun kv => status (snd kv) = does_not_exist) files -> can_continue files = true) /\
  (Forall (fun kv => status (snd kv) = writable \/ status (snd kv) = skip) files
     -> can_continue files = true).
Proof.
  split; [apply can_continue_true|].
  split.
  - rewrite can_continue_false. split; intros H.
    + eapply List.Exists_impl; [|exact H]. simpl. intros kv E. split; [rewrite E; discriminate | exact E].
    + eapply List.Exists_impl; [|exact H]. simpl. intros kv [_ E]. exact E.
  - split; intros H; apply can_continue_true;
      (eapply List.Forall_impl; [|exact H]); simpl.
    + intros kv E. rewrite E. discriminate.
    + intros kv [E|E]; rewrite E; discriminate.
Qed.

Lemma can_continue_gate_witness :
  can_continue [("/proj/c.ma", file_c)] = true /\
  can_continue [("/proj/a.ma", file_a); ("/proj/b.mb", set_status file_b skip)] = true /\
  can_continue [("/proj/a.ma", file_a); ("/proj/b.mb", file_b)] = false.
Proof.
  split; [|split].
  - destruct (can_continue_gate [("/proj/c.ma", file_c)]) as (_ & _ & H & _).
    apply H. constructor; [reflexivity | constructor].
  - destruct (can_continue_gate
                [("/proj/a.ma", file_a); ("/proj/b.mb", set_status file_b skip)])
      as (_ & _ & _ & H).
    apply H. constructor; [left; reflexivity|].
    constructor; [right; reflexivity | constructor].
  - apply (can_continue_gate [("/proj/a.ma", file_a); ("/proj/b.mb", file_b)]).
    right. left. split; [discriminate | reflexivity].
Defined.

(** ** Make Writable *)

Section MakeWritableFacts.

Context (os : OS).

Lemma make_writable_skips (file : PendingFile) (w : World) :
  check_file_status os (fs w) (path file) <> read_only ->
  make_writable os file w = (w, Ok file).
Proof.
  intros H. apply FileStatus_eqb_neq in H.
  unfold make_writable, bind, get_fs. rewrite H. reflexivity.
Qed.

Lemma make_writable_acts (file : PendingFile) (w : World) :
  check_file_status os (fs w) (path file) = read_only ->
  make_writable os file w
  = bind (make_file_writable os (path file)) (fun _ => refreshM os file) w.
Proof.
  intros H. unfold make_writable at 1. unfold bind at 1. unfold get_fs.
  rewrite H. reflexivity.
Qed.

(** Without the guard the error branch is live: on a missing path the
    [os.stat] fails and [cmds.error] raises, before any [chmod]. *)
Lemma make_file_writable_missing (p : string) (w : World) :
  fs w !! p = None ->
  (platform_system os = "Linux" ->
     make_file_writable os p w = (w, Raise (RuntimeError "Error adding write permissions:"))) /\
  (platform_system os = "Windows" ->
     make_file_writable os p w = (w, Raise (RuntimeError "Error removing read-only attribute:"))).
Proof.
  intros H. split; intros Hp;
    unfold make_file_writable, is_unix, bind, except_OSError, os_stat_st_mode;
    rewrite Hp; simpl; rewrite H; reflexivity.
Qed.

(** On a read-only file of a Unix host the three write bits are added. *)
Lemma make_writable_chmods (file : PendingFile) (w : World) (mode : Z) :
  platform_system os = "Linux" ->
  fs w !! path file = Some mode ->
  access_W_OK os (path file) mode = false ->
  chmod_allowed os (path file) = true ->
  let mode' := Z.lor (Z.lor (Z.lor mode S_IWUSR) S_IWGRP) S_IWOTH in
  let w' := mkWorld (<[path file := mode']> (fs w))
                    (trace w ++ [ev_chmod (path file) mode']) in
  make_writable os file w = (w', Ok (refresh os (fs w') file)).
Proof.
  intros Hp Hm Ha Hc mode' w'.
  rewrite make_writable_acts
    by (rewrite (check_file_status_present os _ _ _ Hm), Ha; reflexivity).
  unfold make_file_writable, is_unix, bind, except_OSError, os_stat_st_mode,
    os_chmod, bind, emit, refreshM, get_fs, ret.
  rewrite Hp. simpl. rewrite Hm. simpl. rewrite Hm, Hc. reflexivity.
Qed.

(** C10. [make_writable] acts only when the path classifies as
    [read_only] at the call: when it classifies as anything else, and so in
    particular when the path is missing or writable, the call returns
    normally and leaves the file system, the trace of system calls (no
    [chmod] is attempted) and the file record as they were.  A call that
    changes the world was made on a path that exists and is not writable. *)
Theorem make_writable_guarded (file : PendingFile) (w : World) :
  (check_file_status os (fs w) (path file) <> read_only ->
     make_writable os file w = (w, Ok file)) /\
  (fs w !! path file = None -> make_writable os file w = (w, Ok file)) /\
  (check_file_status os (fs w) (path file) = writable ->
     make_writable os file w = (w, Ok file)) /\
  (forall w' r, make_writable os file w = (w', r) -> w' <> w ->
     exists mode, fs w !! path file = Some mode /\
                  access_W_OK os (path file) mode = false).
Proof.
  split; [apply make_writable_skips|].
  split.
  { intros H. apply make_writable_skips.
    rewrite (check_file_status_missing os _ _ H). discriminate. }
  split.
  { intros H. apply make_writable_skips. rewrite H. discriminate. }
  intros w' r Hrun Hne.
  destruct (fs w !! path file) as [mode|] eqn:Hm.
  - exists mode. split; [reflexivity|].
    destruct (access_W_OK os (path file) mode) eqn:Ha; [|reflexivity].
    exfalso. apply Hne.
    rewrite make_writable_skips in Hrun.
    + injection Hrun as <- _. reflexivity.
    + rewrite (check_file_status_present os _ _ _ Hm), Ha. discriminate.
  - exfalso. apply Hne.
    rewrite make_writable_skips in Hrun.
    + injection Hrun as <- _. reflexivity.
    + rewrite (check_file_status_missing os _ _ Hm). discriminate.
Qed.

End MakeWritableFacts.

Lemma make_writable_guarded_witness :
  make_writable os_owner file_c (mkWorld fs_demo []) = (mkWorld fs_demo [], Ok file_c) /\
  make_writable os_owner file_a (mkWorld fs_demo []) = (mkWorld fs_demo [], Ok file_a).
Proof.
  split.
  - destruct (make_writable_guarded os_owner file_c (mkWorld fs_demo [])) as (_ & H & _).
    apply H. reflexivity.
  - destruct (make_writable_guarded os_owner file_a (mkWorld fs_demo [])) as (_ & _ & H & _).
    apply H. reflexivity.
Defined.

Example make_writable_on_read_only :
  make_writable os_owner file_b (mkWorld fs_demo [])
  = (mkWorld (<["/proj/b.mb" := 438]> fs_demo) [ev_chmod "/proj/b.mb" 438],
     Ok (set_status file_b writable)).
Proof.
  rewrite (make_writable_chmods os_owner file_b (mkWorld fs_demo []) mode_ro);
    reflexivity.
Qed.

(** ** Loops over the handler's files *)

Lemma for_items_cons_ok (body : string -> PendingFile -> M PendingFile)
    (key : string) (value value' : PendingFile) (rest : Files) (w w' : World) :
  body key value w = (w', Ok value') ->
  for_items body ((key, value) :: rest) w
  = (fst (for_items body rest w'),
     ((key, value') :: fst (snd (for_items body rest w')),
      snd (snd (for_items body rest w')))).
Proof.
  intros H. simpl. rewrite H.
  destruct (for_items body rest w') as [w'' [rest' r]]. reflexivity.
Qed.

Lemma for_items_cons_raise (body : string -> PendingFile -> M PendingFile)
    (key : string) (value : PendingFile) (rest : Files) (w w' : World) (e : Exn) :
  body key value w = (w', Raise e) ->
  for_items body ((key, value) :: rest) w = (w', ((key, value) :: rest, Raise e)).
Proof. intros H. simpl. rewrite H. reflexivity. Qed.

(** The keys and their order never change. *)
Lemma for_items_keys (body : string -> PendingFile -> M PendingFile) (items : Files) (w : World) :
  map fst (fst (snd (for_items body items w))) = map fst items.
Proof.
  revert w. induction items as [|[key value] rest IH]; intros w; [reflexivity|].
  simpl. destruct (body key value w) as [w' [value'|e]]; [|reflexivity].
  specialize (IH w'). destruct (for_items body rest w') as [w'' [rest' r]].
  simpl in *. rewrite IH. reflexivity.
Qed.

(** ** The bulk buttons *)

Section ButtonFacts.

Context (os : OS) (p4 : Perforce).

Lemma press_refresh_button_raises (scene : string) (file : PendingFile)
    (rest : Files) (w : World) :
  press_refresh_button os ((scene, file) :: rest) w
  = (w, ((scene, file) :: rest, Raise not_iterable)).
Proof. reflexivity. Qed.

Lemma press_checkout_button_raises (scene : string) (file : PendingFile)
    (rest : Files) (w : World) :
  press_checkout_button os p4 ((scene, file) :: rest) w
  = (w, ((scene, file) :: rest, Raise not_iterable)).
Proof. reflexivity. Qed.

(** What the buttons are described to do reaches every entry. *)
Lemma spec_refreshAll_run (files : Files) (w : World) :
  spec_refreshAll os files w
  = (w, (map (fun kv => (fst kv, refresh os (fs w) (snd kv))) files, Ok tt)).
Proof.
  unfold spec_refreshAll. induction files as [|[scene file] rest IH]; [reflexivity|].
  rewrite (for_items_cons_ok _ _ _ _ _ _ _ (refreshM_run os file w)), IH.
  reflexivity.
Qed.

End ButtonFacts.

(** C4 (the code departs from the claim).  With one stale read-only entry
    whose file has become writable, "Refresh All" and "Checkout All" raise
    [TypeError] at the first entry, since the inner loop iterates over a
    [PendingFile], and no entry is refreshed or checked out; refreshing
    every entry, as described, would set the entry to [writable]. *)
Theorem press_buttons_reach_no_entry :
  let files := [("/proj/b.mb", file_b)] in
  let w := mkWorld fs_b_unlocked [] in
  press_refresh_button os_owner files w = (w, (files, Raise not_iterable)) /\
  press_checkout_button os_owner p4_absent files w = (w, (files, Raise not_iterable)) /\
  status file_b = read_only /\
  spec_refreshAll os_owner files w
    = (w, ([("/proj/b.mb", set_status file_b writable)], Ok tt)).
Proof.
  cbv zeta. split; [|split; [|split]].
  - apply press_refresh_button_raises.
  - apply press_checkout_button_raises.
  - reflexivity.
  - rewrite spec_refreshAll_run. reflexivity.
Qed.

(** ** The execution loop *)

Lemma write_record_keys (k : nat) (f : PendingFile -> PendingFile) (d : Files) :
  map fst (write_record k f d) = map fst d.
Proof.
  revert k. induction d as [|[key v] rest IH]; intros k; [reflexivity|].
  destruct k as [|k]; cbn [write_record map fst]; [reflexivity|].
  rewrite IH. reflexivity.
Qed.

Lemma write_record_here (done : Files) (key : string) (v : PendingFile) (rest : Files)
    (f : PendingFile -> PendingFile) :
  write_record (length done) f (done ++ (key, v) :: rest) = done ++ (key, f v) :: rest.
Proof.
  induction done as [|[key0 v0] done IH]; [reflexivity|].
  cbn [length app write_record]. rewrite IH. reflexivity.
Qed.

Lemma write_record_twice (k : nat) (f g : PendingFile -> PendingFile) (d : Files) :
  write_record k g (write_record k f d) = write_record k (fun v => g (f v)) d.
Proof.
  revert k. induction d as [|[key v] rest IH]; intros k; [reflexivity|].
  destruct k as [|k]; cbn [write_record]; [reflexivity|].
  rewrite IH. reflexivity.
Qed.

Lemma nth_error_here {A} (done : list A) (x : A) (rest : list A) :
  nth_error (done ++ x :: rest) (length done) = Some x.
Proof. induction done as [|y done IH]; [reflexivity | exact IH]. Qed.

Lemma same_keys_refl (d : Files) : same_keys (map fst d) d = true.
Proof.
  induction d as [|[key v] rest IH]; [reflexivity|].
  cbn [map fst same_keys]. rewrite String.eqb_refl, IH. reflexivity.
Qed.

Lemma same_keys_eq (keys0 : list string) (d : Files) :
  same_keys keys0 d = true -> map fst d = keys0.
Proof.
  revert d. induction keys0 as [|key0 keys0 IH]; intros [|[key v] rest]; cbn [same_keys];
    try discriminate; [reflexivity|].
  intros H. apply andb_true_iff in H. destruct H as [Hk Hr].
  apply String.eqb_eq in Hk. subst key0. cbn [map fst]. rewrite (IH rest Hr). reflexivity.
Qed.

Lemma keys_moved_on (done : Files) (key : string) (v v' : PendingFile) (rest : Files) :
  map fst ((done ++ [(key, v')]) ++ rest) = map fst (done ++ (key, v) :: rest).
Proof. rewrite <- List.app_assoc, !List.map_app. reflexivity. Qed.

(** With the keys as they were and nothing left to do, the loop ends. *)
Lemma for_dict_items_from_end (body : nat -> string -> PendingFile -> Run unit)
    (k : nat) (d : Files) (w : World) :
  for_dict_items_from body (map fst d) 0 k d w = (w, (d, Ok tt)).
Proof. cbn [for_dict_items_from]. rewrite same_keys_refl. reflexivity. Qed.

(** One turn of the loop, at the record after [done]. *)
Lemma for_dict_items_from_next (body : nat -> string -> PendingFile -> Run unit)
    (done : Files) (key : string) (value : PendingFile) (rest : Files) (todo : nat)
    (w : World) :
  for_dict_items_from body (map fst (done ++ (key, value) :: rest)) (S todo) (length done)
    (done ++ (key, value) :: rest) w
  = match body (length done) key value (done ++ (key, value) :: rest) w with
    | (w', (d', Ok _)) =>
        for_dict_items_from body (map fst (done ++ (key, value) :: rest)) todo
          (S (length done)) d' w'
    | (w', (d', Raise e)) => (w', (d', Raise e))
    end.
Proof.
  cbn [for_dict_items_from]. rewrite same_keys_refl, nth_error_here. reflexivity.
Qed.

Section ExecutorFacts.

Context (os : OS) (host : Host).
Context (command_type : CommandType) (command : string) (wants_save : bool).

Local Abbreviation body := (execute_script_body os host command_type command wants_save).

Local Abbreviation script file :=
  (match command_type with
   | python => exec_python host command file
   | mel => mel_eval host command file
   end).

(** A file that is not [writable] at confirmation is only labelled. *)
Lemma execute_script_body_not_writable (k : nat) (file : string) (pending_file : PendingFile)
    (d : Files) (w : World) :
  status pending_file <> writable ->
  body k file pending_file d w
  = (w,
     (write_record k
        (fun v =>
           set_warning
             (set_result v
                match status pending_file with
                | skip => file_skipped
                | does_not_exist => file_not_found
                | _ => file_read_only
                end)
             ("File could not be processed due to file state: "
              +:+ FileStatus_str (status pending_file)))
        d,
      Ok tt)).
Proof.
  intros H. unfold execute_script_body.
  destruct (status pending_file) eqn:E; try (exfalso; apply H; reflexivity);
    simpl; unfold run_bind, assign; rewrite write_record_twice; reflexivity.
Qed.

(** A file that was [writable] at confirmation and is not any more gets
    its outcome, and nothing else happens. *)
Lemma execute_script_body_drifted (k : nat) (file : string) (pending_file : PendingFile)
    (d : Files) (w : World) :
  status pending_file = writable ->
  check_file_status os (fs w) file <> writable ->
  body k file pending_file d w
  = (w,
     (write_record k
        (fun v => set_result v (if os_path_exists (fs w) file
                                then file_tampered else file_missing))
        d,
      Ok tt)).
Proof.
  intros Hs Hc. unfold execute_script_body. rewrite Hs. simpl.
  unfold run_bind at 1. unfold lift at 1. unfold get_fs at 1.
  apply FileStatus_eqb_neq in Hc. rewrite Hc. simpl.
  unfold run_bind, lift, get_fs, assign.
  destruct (os_path_exists (fs w) file); reflexivity.
Qed.

(** Past both checks the body is the three host calls, and nothing else. *)
Lemma execute_script_body_runs (k : nat) (file : string) (pending_file : PendingFile)
    (d : Files) (w : World) :
  status pending_file = writable ->
  check_file_status os (fs w) file = writable ->
  body k file pending_file d w
  = (lift (cmds_file_open host file) ;;;
     script file ;;;
     lift (if wants_save then cmds_file_save host else ret tt))%run d w.
Proof.
  intros Hs Hc. unfold execute_script_body. rewrite Hs. simpl.
  unfold run_bind at 1. unfold lift at 1. unfold get_fs at 1. rewrite Hc. reflexivity.
Qed.

(** On that path the loop itself writes nothing to the records: the dict
    goes on as the script left it, or as it was when the scene did not
    open. *)
Lemma execute_script_body_leaves_record (k : nat) (file : string) (pending_file : PendingFile)
    (d : Files) (w : World) :
  status pending_file = writable ->
  check_file_status os (fs w) file = writable ->
  fst (snd (body k file pending_file d w))
  = match cmds_file_open host file w with
    | (w1, Ok _) => fst (snd (script file d w1))
    | (_, Raise _) => d
    end.
Proof.
  intros Hs Hc. rewrite (execute_script_body_runs _ _ _ _ _ Hs Hc).
  unfold run_bind, lift.
  destruct (cmds_file_open host file w) as [w1 [[]|e1]]; [|reflexivity].
  destruct (script file d w1) as [w2 [d2 [[]|e2]]]; [|reflexivity].
  destruct ((if wants_save then cmds_file_save host else ret tt) w2) as [w3 r].
  reflexivity.
Qed.

(** A raise in the body, whatever its cause, ends the whole run: the files
    not yet visited are not visited and the final cleanup is skipped. *)
Lemma execute_script_run_raise (file : string) (pending_file : PendingFile)
    (rest d' : Files) (w w' : World) (e : Exn) :
  body 0 file pending_file ((file, pending_file) :: rest) w = (w', (d', Raise e)) ->
  execute_script_run os host command_type command wants_save
    ((file, pending_file) :: rest) w
  = (w', (d', Raise e)).
Proof.
  intros H. unfold execute_script_run, for_dict_items.
  pose proof (for_dict_items_from_next body [] file pending_file rest (length rest) w) as Hn.
  cbn [app length] in Hn. cbn [length]. rewrite Hn, H. reflexivity.
Qed.


End ExecutorFacts.



(** C1 (the code departs from the claim).  A writable file that passes the
    drift check is opened, the script is run and the scene is saved, but
    the loop writes no outcome: after a script that returns, [result] is
    still unset rather than [success].  A script that raises is not
    caught: the exception leaves the loop at once, no [failed] outcome and
    no message is recorded, and the next file is never opened. *)
Theorem execute_script_records_no_outcome :
  let files := [("/proj/a.ma", file_a); ("/proj/d.ma", file_d)] in
  let w := mkWorld fs_two [] in
  status file_a = writable /\ status file_d = writable /\
  result file_a = None /\ result file_d = None /\
  execute_script_run os_owner host_quiet python "cmd" true files w
  = (mkWorld fs_two
       [ev_file_open "/proj/a.ma"; ev_exec "cmd"; ev_file_save;
        ev_file_open "/proj/d.ma"; ev_exec "cmd"; ev_file_save;
        ev_file_new;
        ev_confirmDialog "Batch Execute Script Results" "Script execution complete."],
     (files, Ok tt)) /\
  execute_script_run os_owner host_raising python "cmd" true files w
  = (mkWorld fs_two [ev_file_open "/proj/a.ma"; ev_exec "cmd"],
     (files, Raise (ScriptError "boom"))).
Proof.
  cbv zeta. split; [|split; [|split; [|split; [|split]]]]; reflexivity.
Qed.

(** What a script does to the records stays: one that assigns
    [pending_file.result] leaves that outcome on each file it ran on, and
    one that adds a key to the dict makes the iterator raise when it is
    asked for the next item, with the new record in the dict. *)
Example script_writes_records :
  let files := [("/proj/a.ma", file_a); ("/proj/d.ma", file_d)] in
  let w := mkWorld fs_two [] in
  snd (execute_script_run os_owner host_reporting python "cmd" false files w)
  = ([("/proj/a.ma", set_result file_a success); ("/proj/d.ma", set_result file_d success)],
     Ok tt) /\
  snd (execute_script_run os_owner host_adding python "cmd" false files w)
  = ([("/proj/a.ma", file_a); ("/proj/d.ma", file_d);
      ("/tmp/x.ma", PendingFile_init os_owner fs_two "/tmp/x.ma" None)],
     Raise (RuntimeError "dictionary changed size during iteration")).
Proof. cbv zeta. split; reflexivity. Qed.

(** ** The scanner *)

Lemma Forall2_In_l {A B} (R : A -> B -> Prop) (xs : list A) (ys : list B) (x : A) :
  Forall2 R xs ys -> In x xs -> exists y, In y ys /\ R x y.
Proof.
  induction 1 as [|x0 y0 xs ys HR _ IH]; intros Hin; [destruct Hin|].
  destruct Hin as [<- | Hin].
  - exists y0. split; [left; reflexivity | exact HR].
  - destruct (IH Hin) as (y & Hy & H). exists y. split; [right; exact Hy | exact H].
Qed.

Lemma Forall2_In_r {A B} (R : A -> B -> Prop) (xs : list A) (ys : list B) (y : B) :
  Forall2 R xs ys -> In y ys -> exists x, In x xs /\ R x y.
Proof.
  induction 1 as [|x0 y0 xs ys HR _ IH]; intros Hin; [destruct Hin|].
  destruct Hin as [<- | Hin].
  - exists x0. split; [left; reflexivity | exact HR].
  - destruct (IH Hin) as (x & Hx & H). exists x. split; [right; exact Hx | exact H].
Qed.

Section ScannerFacts.

Context (normpath : string -> string).

Local Abbreviation npath := (normalized_path normpath).

Lemma gather_here_In (entries : list DirEntry) (p : string) :
  In p (gather_here normpath entries) <->
  exists entry, In entry entries /\ is_file entry = true /\
                is_maya_name (entry_name entry) /\ p = npath entry.
Proof.
  unfold is_maya_name. induction entries as [|e rest IH]; simpl.
  - split; [intros [] | intros (entry & [] & _)].
  - destruct (is_file e) eqn:Hf; simpl.
    + destruct (Py.endswith (entry_name e) ".mb" || Py.endswith (entry_name e) ".ma") eqn:Hn.
      * simpl. rewrite IH. split.
        -- intros [<- | (entry & Hin & H)].
           ++ exists e. apply orb_true_iff in Hn. auto.
           ++ exists entry. tauto.
        -- intros (entry & [<- | Hin] & H1 & H2 & ->); [left; reflexivity|].
           right. exists entry. auto.
      * rewrite IH. split.
        -- intros (entry & Hin & H). exists entry. tauto.
        -- intros (entry & [<- | Hin] & H1 & H2 & ->).
           ++ apply orb_false_iff in Hn. destruct Hn as [Hb Ha].
              destruct H2 as [H2|H2]; congruence.
           ++ exists entry. auto.
    + rewrite IH. split.
      * intros (entry & Hin & H). exists entry. tauto.
      * intros (entry & [<- | Hin] & H1 & H2 & ->); [congruence|].
        exists entry. auto.
Qed.

(** The second loop returns when each recursive call returns, and then
    appends their results in listing order. *)
Lemma gather_below_Ok (g : string -> Res (list string)) (entries : list DirEntry)
    (maya_files found : list string) :
  gather_below normpath g entries maya_files = Ok found <->
  exists founds,
    Forall2 (fun sub l => g sub = Ok l) (subdirectories normpath entries) founds /\
    found = maya_files ++ concat founds.
Proof.
  revert maya_files found. unfold subdirectories.
  induction entries as [|entry rest IH]; intros maya_files found.
  - cbn. split.
    + intros [= <-]. exists []. split; [constructor | symmetry; apply app_nil_r].
    + intros (founds & HF & ->). inversion HF; subst. cbn. rewrite app_nil_r. reflexivity.
  - cbn [gather_below List.filter]. destruct (is_dir entry).
    + cbn [map]. destruct (g (npath entry)) as [l|e] eqn:Hg.
      * rewrite IH. split.
        -- intros (founds & HF & ->). exists (l :: founds). split.
           ++ constructor; assumption.
           ++ cbn. rewrite app_assoc. reflexivity.
        -- intros (founds & HF & ->). inversion HF as [|? l' ? founds' Hl HF']; subst.
           rewrite Hg in Hl. injection Hl as <-.
           exists founds'. split; [exact HF'|]. cbn. rewrite app_assoc. reflexivity.
      * split; [discriminate|].
        intros (founds & HF & _). inversion HF as [|? l' ? founds' Hl HF']; subst.
        rewrite Hg in Hl. discriminate.
    + apply IH.
Qed.

(** It raises only what a recursive call raised. *)
Lemma gather_below_Raise (g : string -> Res (list string)) (entries : list DirEntry)
    (maya_files : list string) (e : Exn) :
  gather_below normpath g entries maya_files = Raise e ->
  exists sub, In sub (subdirectories normpath entries) /\ g sub = Raise e.
Proof.
  revert maya_files. unfold subdirectories.
  induction entries as [|entry rest IH]; intros maya_files; [discriminate|].
  cbn [gather_below List.filter]. destruct (is_dir entry).
  - cbn [map]. destruct (g (npath entry)) as [l|e'] eqn:Hg.
    + intros H. destruct (IH _ H) as (sub & Hin & Hsub).
      exists sub. split; [right; exact Hin | exact Hsub].
    + intros [= <-]. exists (npath entry). split; [left; reflexivity | exact Hg].
  - apply IH.
Qed.

Lemma gather_below_returns (g : string -> Res (list string)) (entries : list DirEntry)
    (maya_files : list string) :
  (forall sub, In sub (subdirectories normpath entries) -> exists l, g sub = Ok l) ->
  exists found, gather_below normpath g entries maya_files = Ok found.
Proof.
  intros H. destruct (gather_below normpath g entries maya_files) as [found|e] eqn:E.
  - exists found. reflexivity.
  - apply gather_below_Raise in E. destruct E as (sub & Hin & Hsub).
    destruct (H sub Hin) as (l & Hl). congruence.
Qed.

Context (scandir : string -> Res (list DirEntry)).

Local Abbreviation gather := (do_gather_maya_files scandir normpath).

Lemma gather_negative (directory : string) (recursion_depth : Z) :
  recursion_depth < 0 -> gather directory recursion_depth = Ok [].
Proof.
  intros H. unfold do_gather_maya_files.
  destruct (Z.ltb_spec recursion_depth 0); [reflexivity | lia].
Qed.


Lemma gather_nonnegative (directory : string) (recursion_depth : Z) :
  0 <= recursion_depth ->
  gather directory recursion_depth
  = gather_to_depth scandir normpath (Z.to_nat recursion_depth) directory.
Proof.
  intros H. unfold do_gather_maya_files.
  destruct (Z.ltb_spec recursion_depth 0); [lia | reflexivity].
Qed.



Lemma within_zero (d d' : string) : within scandir normpath 0 d d' -> d' = d.
Proof. intros H. inversion H. reflexivity. Qed.

(** What a scan that returns holds: the Maya files of the listings of the
    directories within its depth. *)
Lemma gather_to_depth_within (hops : nat) (directory : string) (found : list string) :
  gather_to_depth scandir normpath hops directory = Ok found ->
  forall p, In p found <->
    exists d entries, within scandir normpath hops directory d /\
                      scandir d = Ok entries /\ In p (gather_here normpath entries).
Proof.
  revert directory found. induction hops as [|hops IH]; intros directory found.
  - cbn. destruct (scandir directory) as [entries|e] eqn:Hd; [|discriminate].
    intros [= <-] p. split.
    + intros H. exists directory, entries. split; [constructor | auto].
    + intros (d & entries' & Hw & Hd' & H). apply within_zero in Hw. subst d.
      rewrite Hd in Hd'. injection Hd' as <-. exact H.
  - cbn [gather_to_depth]. destruct (scandir directory) as [entries|e] eqn:Hd; [|discriminate].
    intros Hb p. apply gather_below_Ok in Hb. destruct Hb as (founds & HF & ->).
    rewrite List.in_app_iff, List.in_concat. split.
    + intros [H | (l & Hl & H)].
      * exists directory, entries. split; [constructor | auto].
      * destruct (Forall2_In_r _ _ _ _ HF Hl) as (sub & Hsub & Hg).
        destruct (proj1 (IH sub l Hg p) H) as (d & entries' & Hw & Hd' & H').
        exists d, entries'. split; [|auto]. eapply within_hop; eassumption.
    + intros (d & entries' & Hw & Hd' & H). inversion Hw; subst.
      * left. rewrite Hd in Hd'. injection Hd' as <-. exact H.
      * right. match goal with Hs : scandir directory = Ok ?es |- _ =>
          rewrite Hd in Hs; injection Hs as <- end.
        match goal with Hin : In ?sub (subdirectories normpath entries) |- _ =>
          destruct (Forall2_In_l _ _ _ _ HF Hin) as (l & Hl & Hg); exists l;
          split; [exact Hl|]; apply (IH sub l Hg p) end.
        exists d, entries'. auto.
Qed.

(** The scan returns exactly when every directory within its depth lists. *)
Lemma gather_to_depth_returns (hops : nat) (directory : string) :
  (exists found, gather_to_depth scandir normpath hops directory = Ok found) <->
  (forall d, within scandir normpath hops directory d -> exists entries, scandir d = Ok entries).
Proof.
  revert directory. induction hops as [|hops IH]; intros directory.
  - cbn. split.
    + intros (found & H) d Hw. apply within_zero in Hw. subst d.
      destruct (scandir directory) as [entries|e]; [|discriminate]. exists entries. reflexivity.
    + intros H. destruct (H directory (within_here _ _ _ _)) as (entries & ->).
      exists (gather_here normpath entries). reflexivity.
  - cbn [gather_to_depth]. split.
    + intros (found & H) d Hw.
      destruct (scandir directory) as [entries|e] eqn:Hd; [|discriminate].
      inversion Hw; subst; [exists entries; exact Hd|].
      match goal with Hs : scandir directory = Ok ?es |- _ =>
        rewrite Hd in Hs; injection Hs as <- end.
      apply gather_below_Ok in H. destruct H as (founds & HF & _).
      match goal with Hin : In ?sub (subdirectories normpath entries) |- _ =>
        destruct (Forall2_In_l _ _ _ _ HF Hin) as (l & _ & Hg);
        apply (proj1 (IH sub)); [exists l; exact Hg | assumption] end.
    + intros H. destruct (H directory (within_here _ _ _ _)) as (entries & Hd).
      rewrite Hd. apply gather_below_returns. intros sub Hsub.
      apply (proj2 (IH sub)). intros d Hw. apply H.
      eapply within_hop; eassumption.
Qed.

End ScannerFacts.




Example do_gather_demo :
  do_gather_maya_files scandir_demo normpath_id "/proj" 0 = Ok ["/proj/a.ma"; "/proj/b.mb"] /\
  do_gather_maya_files scandir_demo normpath_id "/proj" 1
  = Ok ["/proj/a.ma"; "/proj/b.mb"; "/proj/sub/c.ma"] /\
  do_gather_maya_files scandir_demo normpath_id "/proj" 2
  = Ok ["/proj/a.ma"; "/proj/b.mb"; "/proj/sub/c.ma"; "/proj/sub/deep/d.mb"].
Proof. repeat split. Qed.

(** ** String methods *)

Lemma ascii_eqb_refl (c : ascii) : Ascii.eqb c c = true.
Proof. apply Ascii.eqb_eq. reflexivity. Qed.

(** [endswith] is "has the argument as its tail". *)
Lemma endswith_spec (s suf : string) :
  Py.endswith s suf = true <-> exists pre, s = pre +:+ suf.
Proof.
  split.
  - induction s as [|c t IH]; cbn [Py.endswith].
    + rewrite orb_false_r. intros H. apply String.eqb_eq in H. exists "". exact H.
    + intros H. apply orb_true_iff in H. destruct H as [H|H].
      * apply String.eqb_eq in H. exists "". exact H.
      * destruct (IH H) as [pre ->]. exists (String c pre). reflexivity.
  - intros [pre ->]. induction pre as [|c pre IH].
    + change ("" +:+ suf) with suf.
      destruct suf; cbn [Py.endswith]; rewrite String.eqb_refl; reflexivity.
    + change (String c pre +:+ suf) with (String c (pre +:+ suf)).
      cbn [Py.endswith]. rewrite IH. apply orb_true_r.
Qed.

(** [startswith] is "has the argument as its head". *)
Lemma startswith_spec (s p : string) :
  Py.startswith s p = true <-> exists rest, s = p +:+ rest.
Proof.
  unfold Py.startswith. revert s. induction p as [|a p IH]; intros s.
  - split; [intros _; exists s; reflexivity | intros _; destruct s; reflexivity].
  - destruct s as [|b s]; cbn [String.prefix].
    + split; [discriminate | intros [rest H]; discriminate H].
    + destruct (ascii_dec a b) as [<-|Hne].
      * rewrite IH. split; intros [rest H]; exists rest.
        -- rewrite H. reflexivity.
        -- injection H as H. exact H.
      * split; [discriminate|]. intros [rest H]. injection H as E _.
        exfalso. apply Hne. symmetry. exact E.
Qed.

(** [in] is "occurs somewhere". *)
Lemma contains_spec (sub s : string) :
  Py.contains sub s = true <-> exists pre post, s = pre +:+ sub +:+ post.
Proof.
  split.
  - induction s as [|c t IH]; cbn [Py.contains]; intros H;
      apply orb_true_iff in H; destruct H as [H|H].
    + apply (startswith_spec "" sub) in H. destruct H as [post H].
      exists "", post. exact H.
    + discriminate H.
    + apply (startswith_spec (String c t) sub) in H. destruct H as [post H].
      exists "", post. exact H.
    + destruct (IH H) as (pre & post & ->). exists (String c pre), post. reflexivity.
  - intros (pre & post & ->). induction pre as [|c pre IH].
    + change ("" +:+ sub +:+ post) with (sub +:+ post).
      assert (Hp : Py.startswith (sub +:+ post) sub = true)
        by (apply startswith_spec; exists post; reflexivity).
      unfold Py.startswith in Hp.
      destruct (sub +:+ post); cbn [Py.contains]; rewrite Hp; reflexivity.
    + change (String c pre +:+ sub +:+ post) with (String c (pre +:+ sub +:+ post)).
      cbn [Py.contains]. rewrite IH. apply orb_true_r.
Qed.

Lemma lacks_append (c : ascii) (s t : string) :
  Py.lacks c (s +:+ t) = Py.lacks c s && Py.lacks c t.
Proof.
  induction s as [|a s IH]; simpl; [reflexivity|].
  rewrite IH. apply andb_assoc.
Qed.

(** Splitting at the first separator. *)
Lemma split_at_first (c : ascii) (stem rest : string) :
  Py.lacks c stem = true ->
  Py.split c (stem +:+ String c rest) = stem :: Py.split c rest.
Proof.
  induction stem as [|a t IH]; simpl; intros H.
  - rewrite ascii_eqb_refl. reflexivity.
  - apply andb_true_iff in H. destruct H as [Ha Ht].
    apply negb_true_iff in Ha. rewrite Ha, (IH Ht). reflexivity.
Qed.

Lemma split_none (c : ascii) (s : string) :
  Py.lacks c s = true -> Py.split c s = [s].
Proof.
  induction s as [|a t IH]; simpl; intros H; [reflexivity|].
  apply andb_true_iff in H. destruct H as [Ha Ht].
  apply negb_true_iff in Ha. rewrite Ha, (IH Ht). reflexivity.
Qed.

(** The specification's stem: everything before the last dot. *)
Lemma spec_strip_extension_last (stem ext : string) :
  Py.lacks "."%char ext = true ->
  spec_strip_extension (stem +:+ String "."%char ext) = stem.
Proof.
  intros He. induction stem as [|a t IH].
  - change ("" +:+ String "."%char ext) with (String "."%char ext).
    cbn [spec_strip_extension]. rewrite He, ascii_eqb_refl. reflexivity.
  - change (String a t +:+ String "."%char ext)
      with (String a (t +:+ String "."%char ext)).
    cbn [spec_strip_extension]. rewrite IH, lacks_append.
    cbn [Py.lacks]. rewrite ascii_eqb_refl. cbn [negb andb].
    rewrite andb_false_r, andb_false_r. reflexivity.
Qed.

(** ** The filter stage *)

(** The order of the tests: each verdict is reached exactly when its test
    fires and none of the earlier ones did. *)
Lemma filter_verdict_order (prefix suffix filter_string : string)
    (file_type : option (list string)) (file : string) :
  let v := filter_verdict prefix suffix filter_string file_type file in
  (v = removed_by_prefix <-> prefix_test prefix file = true) /\
  (v = removed_by_suffix <->
     prefix_test prefix file = false /\ suffix_test suffix file = true) /\
  (v = dropped_by_string <->
     prefix_test prefix file = false /\ suffix_test suffix file = false /\
     string_test filter_string file = true) /\
  (v = dropped_by_type <->
     prefix_test prefix file = false /\ suffix_test suffix file = false /\
     string_test filter_string file = false /\ type_test file_type file = true) /\
  (v = appended <->
     prefix_test prefix file = false /\ suffix_test suffix file = false /\
     string_test filter_string file = false /\ type_test file_type file = false).
Proof.
  unfold filter_verdict.
  destruct (prefix_test prefix file), (suffix_test suffix file),
    (string_test filter_string file), (type_test file_type file);
    cbv zeta; repeat split; intros; try reflexivity; try discriminate;
    repeat match goal with H : _ /\ _ |- _ => destruct H end; discriminate.
Qed.

(** The loop keeps the appended files and collects those removed by name,
    each in the order of the scan. *)
Lemma filter_files_run (prefix suffix filter_string : string)
    (file_type : option (list string)) (maya_files filtered_files removed_files : list string) :
  let verdict := filter_verdict prefix suffix filter_string file_type in
  filter_files prefix suffix filter_string file_type maya_files filtered_files removed_files
  = (filtered_files ++ List.filter (fun file => Verdict_eqb (verdict file) appended) maya_files,
     removed_files
     ++ List.filter (fun file => Verdict_eqb (verdict file) removed_by_prefix
                                 || Verdict_eqb (verdict file) removed_by_suffix)
                    maya_files).
Proof.
  cbv zeta. revert filtered_files removed_files.
  induction maya_files as [|file rest IH]; intros filtered_files removed_files.
  - simpl. rewrite !app_nil_r. reflexivity.
  - cbn [filter_files List.filter].
    destruct (filter_verdict prefix suffix filter_string file_type file);
      rewrite IH; cbn [Verdict_eqb orb]; rewrite <- ?app_assoc; reflexivity.
Qed.

(** A file alone in the list is handed on exactly when it is appended. *)
Lemma excluded_verdict (prefix suffix filter_string file_type_text file : string) :
  excluded prefix suffix filter_string file_type_text file
  = negb (Verdict_eqb
            (filter_verdict prefix suffix filter_string
               (parse_file_type file_type_text) file)
            appended).
Proof.
  unfold excluded, filter_stage. simpl.
  destruct (filter_verdict prefix suffix filter_string
              (parse_file_type file_type_text) file); simpl;
    rewrite ?String.eqb_refl; reflexivity.
Qed.

Lemma Verdict_eqb_eq (a b : Verdict) : Verdict_eqb a b = true <-> a = b.
Proof. destruct a, b; simpl; split; intros H; try reflexivity; discriminate H. Qed.

Lemma truthy_nonempty (s : string) : s <> "" -> Py.truthy s = true.
Proof.
  intros H. unfold Py.truthy. apply negb_true_iff. apply String.eqb_neq. exact H.
Qed.

(** On a name with a single dot the program and the specification look at
    the same stem. *)
Lemma tested_name_plain (file stem ext : string) :
  Py.basename file = stem +:+ "." +:+ ext ->
  Py.lacks "."%char stem = true ->
  Py.lacks "."%char ext = true ->
  tested_name file = stem /\ tested_extension file = ext /\
  spec_strip_extension (Py.basename file) = stem.
Proof.
  intros Hb Hs He. unfold tested_name, tested_extension. rewrite Hb.
  change (stem +:+ "." +:+ ext) with (stem +:+ String "."%char ext).
  rewrite (split_at_first _ _ _ Hs), (split_none _ _ He).
  split; [reflexivity|]. split; [reflexivity|].
  apply (spec_strip_extension_last stem ext He).
Qed.

(** C6, as stated, fails twice.  With suffix ["_bak"] and no other name
    filter, [asset.v2_bak.mb] is kept although its basename minus the
    extension, [asset.v2_bak], ends with the suffix: the test looks at
    [asset], the part before the first dot.  And with prefix ["tmp_"] the
    file [tmp_asset.mb] is excluded although nothing ends with the suffix:
    the suffix is one of four tests. *)
Lemma suffix_filter_counterexample :
  (spec_suffix_match "_bak" "/proj/asset.v2_bak.mb" = true /\
   excluded "" "_bak" "" "mb,ma" "/proj/asset.v2_bak.mb" = false /\
   filter_stage "" "_bak" "" "mb,ma" ["/proj/asset.v2_bak.mb"] = ["/proj/asset.v2_bak.mb"]) /\
  (spec_suffix_match "_bak" "/proj/tmp_asset.mb" = false /\
   excluded "tmp_" "_bak" "" "mb,ma" "/proj/tmp_asset.mb" = true).
Proof.
  split; [split; [|split] | split]; vm_compute; reflexivity.
Qed.

(** C6, amended.  For a file whose basename is [stem.ext] with a single
    dot, and a suffix that is not empty: the suffix test fires exactly when
    the basename minus its extension ends with the suffix; the tests run
    in the order prefix, suffix, string, type, and each decides the file
    exactly when it fires and no earlier one did; the file is excluded
    exactly when some test fires, hence, when the prefix and the string are
    empty and the extension is allowed, exactly when the basename minus its
    extension ends with the suffix. *)
Theorem filter_suffix_on_plain_names
    (prefix suffix filter_string file_type_text file stem ext : string) :
  Py.basename file = stem +:+ "." +:+ ext ->
  Py.lacks "."%char stem = true ->
  Py.lacks "."%char ext = true ->
  suffix <> "" ->
  let file_type := parse_file_type file_type_text in
  let v := filter_verdict prefix suffix filter_string file_type file in
  (suffix_test suffix file = true <-> spec_suffix_match suffix file = true) /\
  (spec_suffix_match suffix file = true <-> exists pre, stem = pre +:+ suffix) /\
  (v = removed_by_prefix <-> prefix_test prefix file = true) /\
  (v = removed_by_suffix <->
     prefix_test prefix file = false /\ spec_suffix_match suffix file = true) /\
  (v = dropped_by_string <->
     prefix_test prefix file = false /\ spec_suffix_match suffix file = false /\
     string_test filter_string file = true) /\
  (v = dropped_by_type <->
     prefix_test prefix file = false /\ spec_suffix_match suffix file = false /\
     string_test filter_string file = false /\ type_test file_type file = true) /\
  (excluded prefix suffix filter_string file_type_text file = true <->
     prefix_test prefix file = true \/ spec_suffix_match suffix file = true \/
     string_test filter_string file = true \/ type_test file_type file = true) /\
  (prefix = "" -> filter_string = "" -> type_test file_type file = false ->
     (excluded prefix suffix filter_string file_type_text file = true <->
      spec_suffix_match suffix file = true)).
Proof.
  intros Hb Hs He Hsuf file_type v.
  destruct (tested_name_plain file stem ext Hb Hs He) as (Hname & _ & Hstrip).
  assert (Heq : suffix_test suffix file = spec_suffix_match suffix file).
  { unfold suffix_test, spec_suffix_match.
    rewrite (truthy_nonempty _ Hsuf), Hname, Hstrip. reflexivity. }
  assert (Hex : excluded prefix suffix filter_string file_type_text file = true <->
                v <> appended).
  { rewrite excluded_verdict, negb_true_iff. fold file_type. fold v.
    split.
    - intros H E. rewrite E in H. discriminate H.
    - intros H. destruct (Verdict_eqb v appended) eqn:E; [|reflexivity].
      apply Verdict_eqb_eq in E. contradiction. }
  destruct (filter_verdict_order prefix suffix filter_string file_type file)
    as (H1 & H2 & H3 & H4 & H5).
  fold v in H1, H2, H3, H4, H5. rewrite Heq in H2, H3, H4, H5.
  assert (Hany : v <> appended <->
                 prefix_test prefix file = true \/ spec_suffix_match suffix file = true \/
                 string_test filter_string file = true \/ type_test file_type file = true).
  { rewrite H5.
    destruct (prefix_test prefix file), (spec_suffix_match suffix file),
      (string_test filter_string file), (type_test file_type file);
      split; intros H; auto; try (exfalso; apply H; auto; fail);
      try (intros (? & ? & ? & ?); discriminate);
      try (destruct H as [H|[H|[H|H]]]; discriminate). }
  split; [rewrite Heq; tauto|].
  split; [unfold spec_suffix_match; rewrite Hstrip; apply endswith_spec|].
  split; [exact H1|]. split; [exact H2|]. split; [exact H3|]. split; [exact H4|].
  split; [rewrite Hex; exact Hany|].
  intros Hp Hf Ht. rewrite Hex, Hany.
  unfold prefix_test, string_test. rewrite Hp, Hf, Ht. simpl.
  split; [intros [H|[H|[H|H]]]; try discriminate; exact H | auto].
Qed.

Lemma filter_suffix_on_plain_names_witness :
  excluded "" "_bak" "" "mb,ma" "/proj/asset_bak.mb" = true /\
  filter_verdict "" "_bak" "" (parse_file_type "mb,ma") "/proj/asset_bak.mb"
  = removed_by_suffix.
Proof.
  destruct (filter_suffix_on_plain_names "" "_bak" "" "mb,ma" "/proj/asset_bak.mb"
              "asset_bak" "mb")
    as (_ & _ & _ & H2 & _ & _ & _ & H7);
    [reflexivity | reflexivity | reflexivity | discriminate |].
  split.
  - apply H7; reflexivity.
  - apply H2. split; reflexivity.
Defined.

(** The examples of the specification's filter pipeline. *)
Example filter_pipeline_examples :
  filter_stage "tmp_" "" "" "mb,ma" ["/proj/tmp_asset.mb"; "/proj/asset.mb"] = ["/proj/asset.mb"] /\
  filter_stage "" "_bak" "" "mb,ma" ["/proj/asset_bak.mb"; "/proj/asset.mb"] = ["/proj/asset.mb"] /\
  filter_stage "" "" "OLD" "mb,ma" ["/proj/assetOLD.mb"; "/proj/asset.mb"] = ["/proj/asset.mb"] /\
  filter_stage "" "" "" "mb" ["/proj/asset.ma"; "/proj/asset.mb"] = ["/proj/asset.mb"].
Proof. repeat split; vm_compute; reflexivity. Qed.

(** * Further properties of the program *)

(** ** Entries stay in step with the file system *)

Section EntrySync.

Context (os : OS).

(** X1. The stored status of an entry is [skip] or the classification of
    its path as of the last action: this holds for a fresh record, after
    [refresh] and after [skip_file].  On an entry in that state [refresh]
    changes nothing, so [refresh] is idempotent, and it changes nothing
    right after [skip_file]. *)
Theorem entry_status_in_step (f : FS) (file : PendingFile) (p : string) (n : option string) :
  let in_step (x : PendingFile) :=
    status x = skip \/ status x = check_file_status os f (path x) in
  in_step (PendingFile_init os f p n) /\
  in_step (refresh os f file) /\
  in_step (skip_file os f file) /\
  (in_step file -> refresh os f file = file) /\
  refresh os f (refresh os f file) = refresh os f file /\
  refresh os f (skip_file os f file) = skip_file os f file.
Proof.
  intros in_step.
  assert (Hfix : forall x, in_step x -> refresh os f x = x).
  { intros x [H|H].
    - apply refresh_skipped. exact H.
    - rewrite refresh_not_skipped
        by (rewrite H; apply check_file_status_never_skip).
      rewrite <- H. apply set_status_same. }
  assert (Hr : in_step (refresh os f file)).
  { destruct (FileStatus_eqb (status file) skip) eqn:E.
    - apply FileStatus_eqb_eq in E. left. rewrite (refresh_skipped os f file E). exact E.
    - apply FileStatus_eqb_neq in E. right.
      rewrite (refresh_not_skipped os f file E). reflexivity. }
  assert (Hs : in_step (skip_file os f file)).
  { destruct (FileStatus_eqb (status file) skip) eqn:E.
    - apply FileStatus_eqb_eq in E. right.
      rewrite (skip_file_on_skipped os f file E). reflexivity.
    - apply FileStatus_eqb_neq in E. left.
      rewrite (skip_file_on_unskipped os f file E). reflexivity. }
  split; [right; reflexivity|].
  split; [exact Hr|]. split; [exact Hs|]. split; [apply Hfix|].
  split; apply Hfix; assumption.
Qed.

End EntrySync.

Lemma entry_status_in_step_witness : refresh os_owner fs_demo file_b = file_b.
Proof.
  destruct (entry_status_in_step os_owner fs_demo file_b "/proj/b.mb" None)
    as (_ & _ & _ & H & _).
  apply H. right. reflexivity.
Defined.

(** ** Make Writable, in detail *)

Section MakeFileWritableFacts.

Context (os : OS).

Lemma is_unix_run (w : World) :
  (exists unix, is_unix os w = (w, Ok unix)) \/
  (exists msg, is_unix os w = (w, Raise (RuntimeError msg))).
Proof.
  unfold is_unix.
  destruct (String.eqb (platform_system os) "Windows"); [left; eexists; reflexivity|].
  destruct (String.eqb (platform_system os) "Linux" || String.eqb (platform_system os) "Darwin");
    [left | right]; eexists; reflexivity.
Qed.

(** What one branch of [make_file_writable] does, for either set of bits. *)
Lemma chmod_branch_run (p msg : string) (bits : Z -> Z) (w : World) :
  let attempt := except_OSError
                   (st_mode <- os_stat_st_mode p ;; os_chmod os p (bits st_mode))
                   (fun e => cmds_error msg) in
  match fs w !! p with
  | None => attempt w = (w, Raise (RuntimeError msg))
  | Some mode =>
      let tried := mkWorld (fs w) (trace w ++ [ev_chmod p (bits mode)]) in
      if chmod_allowed os p
      then attempt w = (mkWorld (<[p := bits mode]> (fs w)) (trace tried), Ok tt)
      else attempt w = (tried, Raise (RuntimeError msg))
  end.
Proof.
  cbv zeta. unfold except_OSError, bind, os_stat_st_mode, os_chmod, bind, emit, cmds_error, raise.
  destruct (fs w !! p) as [mode|] eqn:Hm; [|reflexivity].
  simpl. rewrite Hm. destruct (chmod_allowed os p); reflexivity.
Qed.

Lemma make_file_writable_unfold (p : string) (w : World) :
  make_file_writable os p w
  = match is_unix os w with
    | (w', Ok true) =>
        except_OSError
          (st_mode <- os_stat_st_mode p ;;
           os_chmod os p (Z.lor (Z.lor (Z.lor st_mode S_IWUSR) S_IWGRP) S_IWOTH))
          (fun e => cmds_error "Error adding write permissions:") w'
    | (w', Ok false) =>
        except_OSError
          (st_mode <- os_stat_st_mode p ;; os_chmod os p (Z.lor st_mode S_IWRITE))
          (fun e => cmds_error "Error removing read-only attribute:") w'
    | (w', Raise e) => (w', Raise e)
    end.
Proof.
  unfold make_file_writable. unfold bind at 1.
  destruct (is_unix os w) as [w' [[|]|e]]; reflexivity.
Qed.

Lemma lor_keeps_bits (a b : Z) (i : Z) :
  Z.testbit a i = true -> Z.testbit (Z.lor a b) i = true.
Proof. intros H. rewrite Z.lor_spec, H. reflexivity. Qed.

(** The two sets of bits the program adds. *)
Lemma make_file_writable_ok_inv (p : string) (w w' : World) :
  make_file_writable os p w = (w', Ok tt) ->
  exists mode added,
    (added = Z.lor (Z.lor S_IWUSR S_IWGRP) S_IWOTH \/ added = S_IWRITE) /\
    fs w !! p = Some mode /\
    w' = mkWorld (<[p := Z.lor mode added]> (fs w))
                 (trace w ++ [ev_chmod p (Z.lor mode added)]).
Proof.
  rewrite make_file_writable_unfold.
  destruct (is_unix_run w) as [[unix Hu] | [msg Hu]]; rewrite Hu; [|discriminate].
  destruct unix.
  - pose proof (chmod_branch_run p "Error adding write permissions:"
                  (fun m => Z.lor (Z.lor (Z.lor m S_IWUSR) S_IWGRP) S_IWOTH) w) as Hb.
    cbv zeta in Hb. destruct (fs w !! p) as [mode|] eqn:Hm.
    + destruct (chmod_allowed os p); rewrite Hb; [|discriminate].
      intros H. injection H as <-. exists mode, (Z.lor (Z.lor S_IWUSR S_IWGRP) S_IWOTH).
      split; [left; reflexivity|]. split; [reflexivity|].
      rewrite !Z.lor_assoc. reflexivity.
    + rewrite Hb. discriminate.
  - pose proof (chmod_branch_run p "Error removing read-only attribute:"
                  (fun m => Z.lor m S_IWRITE) w) as Hb.
    cbv zeta in Hb. destruct (fs w !! p) as [mode|] eqn:Hm.
    + destruct (chmod_allowed os p); rewrite Hb; [|discriminate].
      intros H. injection H as <-. exists mode, S_IWRITE.
      split; [right; reflexivity|]. split; reflexivity.
    + rewrite Hb. discriminate.
Qed.

Lemma added_bits_owner (added : Z) :
  added = Z.lor (Z.lor S_IWUSR S_IWGRP) S_IWOTH \/ added = S_IWRITE ->
  Z.testbit added 7 = true.
Proof. intros [-> | ->]; reflexivity. Qed.

(** X2. When [make_file_writable] returns, the path existed, its mode is
    the old mode with bits added and none removed, the owner write bit is
    among them, the one [chmod] is on that path, and no other path is
    touched. *)
Theorem make_file_writable_adds_bits (p : string) (w w' : World) :
  make_file_writable os p w = (w', Ok tt) ->
  exists mode mode',
    fs w !! p = Some mode /\
    fs w' = <[p := mode']> (fs w) /\
    trace w' = trace w ++ [ev_chmod p mode'] /\
    (forall i, Z.testbit mode i = true -> Z.testbit mode' i = true) /\
    Z.testbit mode' 7 = true /\
    (forall q, q <> p -> fs w' !! q = fs w !! q).
Proof.
  intros H. destruct (make_file_writable_ok_inv p w w' H) as (mode & added & Ha & Hm & ->).
  exists mode, (Z.lor mode added).
  split; [exact Hm|]. split; [reflexivity|]. split; [reflexivity|].
  split; [intros i Hi; apply lor_keeps_bits; exact Hi|].
  split.
  - rewrite Z.lor_spec, (added_bits_owner added Ha). apply orb_true_r.
  - intros q Hq. simpl. apply lookup_insert_ne. congruence.
Qed.


End MakeFileWritableFacts.

Section MakeWritableUnlocks.

Context (os : OS).

(** X4. On a host where the owner write bit decides write access, Make
    Writable on an entry that is not skipped and whose file is read-only
    either raises or leaves the file, and the entry, writable. *)
Theorem make_writable_unlocks (file file' : PendingFile) (w w' : World) :
  (forall mode, Z.testbit mode 7 = true -> access_W_OK os (path file) mode = true) ->
  status file <> skip ->
  check_file_status os (fs w) (path file) = read_only ->
  make_writable os file w = (w', Ok file') ->
  check_file_status os (fs w') (path file) = writable /\
  file' = set_status file writable.
Proof.
  intros Hbit Hskip Hro. rewrite (make_writable_acts os file w Hro).
  unfold bind at 1.
  destruct (make_file_writable os (path file) w) as [w1 [[]|e]] eqn:Hmf; [|discriminate].
  destruct (make_file_writable_ok_inv os _ _ _ Hmf) as (mode & added & Ha & Hm & ->).
  rewrite refreshM_run. intros H. injection H as <- <-.
  assert (Hc : check_file_status os (<[path file := Z.lor mode added]> (fs w)) (path file)
               = writable).
  { rewrite (check_file_status_present os _ _ (Z.lor mode added))
      by apply lookup_insert_eq.
    rewrite Hbit; [reflexivity|].
    rewrite Z.lor_spec, (added_bits_owner added Ha). apply orb_true_r. }
  split; [exact Hc|].
  rewrite (refresh_not_skipped os _ _ Hskip). simpl. rewrite Hc. reflexivity.
Qed.

End MakeWritableUnlocks.

(** ** Checkout *)

Lemma config_get_pure (config : list (string * string)) (key : string) (w : World) :
  fst (config_get config key w) = w.
Proof.
  induction config as [|[k v] rest IH]; simpl; [reflexivity|].
  destruct (String.eqb k key); [reflexivity | exact IH].
Qed.

Lemma config_get_missing (config : list (string * string)) (key : string) (w : World) :
  ~ In key (map fst config) -> config_get config key w = (w, Raise (KeyError key)).
Proof.
  induction config as [|[k v] rest IH]; simpl; intros H; [reflexivity|].
  destruct (String.eqb k key) eqn:E.
  - apply String.eqb_eq in E. exfalso. apply H. left. exact E.
  - apply IH. intros Hin. apply H. right. exact Hin.
Qed.

Lemma config_get_present (config : list (string * string)) (key : string) (w : World) :
  In key (map fst config) -> exists v, config_get config key w = (w, Ok v).
Proof.
  induction config as [|[k v] rest IH]; simpl; intros H; [contradiction|].
  destruct (String.eqb k key) eqn:E.
  - exists v. reflexivity.
  - destruct H as [H|H]; [apply String.eqb_neq in E; contradiction|]. apply IH. exact H.
Qed.

Section CheckoutFacts.

Context (os : OS) (p4 : Perforce).

(** The part of [checkout_file_perforce] after the settings are read. *)
Lemma checkout_file_perforce_configured (p cfg : string) (config : list (string * string))
    (w w1 : World) :
  has_perforce_installed p4 = true ->
  p4config_optionVar p4 = Some cfg -> cfg <> "" ->
  read_p4config p4 cfg w = (w1, Ok config) ->
  checkout_file_perforce p4 p w
  = (port <- config_get config "P4PORT" ;;
     client <- config_get config "P4CLIENT" ;;
     user <- config_get config "P4USER" ;;
     fun w0 =>
       match (p4_connect p4 ;;; emit (ev_p4_edit p) ;;; p4_run_edit p4 p) w0 with
       | (w', Ok _) => (p4_disconnect p4 ;;; ret true) w'
       | (w', Raise (P4Exception msg)) =>
           (dismiss_dialog "Checkout Failed"
              ("Failed to check out: " +:+ p +:+ ". Error: " +:+ msg
               +:+ " Hint: "
               +:+ (if Py.contains "not on client." msg
                    then "The file does not exist in perforce, use 'Make Writable'."
                    else "None")) ;;;
            p4_disconnect p4 ;;;
            ret false) w'
       | (w', Raise e) => (p4_disconnect p4 ;;; raise e) w'
       end) w1.
Proof.
  intros Hi Hc Hne Hr. unfold checkout_file_perforce.
  rewrite Hi, Hc. simpl. rewrite (truthy_nonempty cfg Hne). simpl.
  unfold bind at 1. rewrite Hr. reflexivity.
Qed.

(** X5. A p4config that lacks one of [P4PORT], [P4CLIENT], [P4USER] makes
    the checkout raise [KeyError] for the first missing key, before the
    server is contacted: the world is as the reading of the file left it. *)
Theorem checkout_file_perforce_missing_key (p cfg key : string)
    (config : list (string * string)) (w w1 : World) :
  has_perforce_installed p4 = true ->
  p4config_optionVar p4 = Some cfg -> cfg <> "" ->
  read_p4config p4 cfg w = (w1, Ok config) ->
  ~ In key (map fst config) ->
  (key = "P4PORT" \/
   key = "P4CLIENT" /\ In "P4PORT" (map fst config) \/
   key = "P4USER" /\ In "P4PORT" (map fst config) /\ In "P4CLIENT" (map fst config)) ->
  checkout_file_perforce p4 p w = (w1, Raise (KeyError key)).
Proof.
  intros Hi Hc Hne Hr Hmiss Hkey.
  rewrite (checkout_file_perforce_configured p cfg config w w1 Hi Hc Hne Hr).
  destruct Hkey as [-> | [[-> Hp] | [-> [Hp Hcl]]]].
  - unfold bind at 1. rewrite (config_get_missing _ _ w1 Hmiss). reflexivity.
  - destruct (config_get_present config "P4PORT" w1 Hp) as [port Hport].
    unfold bind at 1. rewrite Hport.
    unfold bind at 1. rewrite (config_get_missing _ _ w1 Hmiss). reflexivity.
  - destruct (config_get_present config "P4PORT" w1 Hp) as [port Hport].
    destruct (config_get_present config "P4CLIENT" w1 Hcl) as [client Hclient].
    unfold bind at 1. rewrite Hport.
    unfold bind at 1. rewrite Hclient.
    unfold bind at 1. rewrite (config_get_missing _ _ w1 Hmiss). reflexivity.
Qed.

(** X6. A refusal by the server ([P4Exception] from the connection or the
    edit) does not escape: it is shown in a dialog, the connection is
    closed, and [checkout_file_perforce] returns [False]. *)
Theorem checkout_file_perforce_refused (p cfg msg : string)
    (config : list (string * string)) (w w1 w2 w3 : World) (hint : string) :
  has_perforce_installed p4 = true ->
  p4config_optionVar p4 = Some cfg -> cfg <> "" ->
  read_p4config p4 cfg w = (w1, Ok config) ->
  In "P4PORT" (map fst config) -> In "P4CLIENT" (map fst config) ->
  In "P4USER" (map fst config) ->
  (p4_connect p4 ;;; emit (ev_p4_edit p) ;;; p4_run_edit p4 p) w1
    = (w2, Raise (P4Exception msg)) ->
  hint = (if Py.contains "not on client." msg
          then "The file does not exist in perforce, use 'Make Writable'."
          else "None") ->
  p4_disconnect p4
    (mkWorld (fs w2)
       (trace w2 ++ [ev_confirmDialog "Checkout Failed"
                       ("Failed to check out: " +:+ p +:+ ". Error: " +:+ msg
                        +:+ " Hint: " +:+ hint)]))
    = (w3, Ok tt) ->
  checkout_file_perforce p4 p w = (w3, Ok false).
Proof.
  intros Hi Hc Hne Hr Hp Hcl Hu Hedit -> Hdis.
  rewrite (checkout_file_perforce_configured p cfg config w w1 Hi Hc Hne Hr).
  destruct (config_get_present config "P4PORT" w1 Hp) as [port Hport].
  destruct (config_get_present config "P4CLIENT" w1 Hcl) as [client Hclient].
  destruct (config_get_present config "P4USER" w1 Hu) as [user Huser].
  unfold bind at 1. rewrite Hport.
  unfold bind at 1. rewrite Hclient.
  unfold bind at 1. rewrite Huser.
  rewrite Hedit.
  unfold bind at 1. unfold dismiss_dialog, emit.
  unfold bind at 1. rewrite Hdis. reflexivity.
Qed.


End CheckoutFacts.

(** ** The p4config reader *)

Lemma str_app_cons (a : ascii) (s t : string) : String a s +:+ t = String a (s +:+ t).
Proof. reflexivity. Qed.

Lemma str_app_nil_l (t : string) : "" +:+ t = t.
Proof. reflexivity. Qed.

Lemma str_app_assoc (s t u : string) : (s +:+ t) +:+ u = s +:+ (t +:+ u).
Proof.
  induction s as [|a s IH]; [reflexivity|].
  rewrite !str_app_cons, IH. reflexivity.
Qed.

(** Membership of a single character. *)
Lemma contains_char (c : ascii) (s : string) :
  Py.contains (String c "") s = negb (Py.lacks c s).
Proof.
  induction s as [|a t IH]; [reflexivity|].
  cbn [Py.contains Py.lacks String.prefix]. rewrite IH.
  destruct (ascii_dec c a) as [<-|Hne].
  - rewrite ascii_eqb_refl. destruct t; reflexivity.
  - assert (E : Ascii.eqb a c = false) by (apply Ascii.eqb_neq; congruence).
    rewrite E. reflexivity.
Qed.

Lemma not_space_neq (a c : ascii) :
  PyText.is_space a = true -> PyText.is_space c = false -> Ascii.eqb a c = false.
Proof.
  intros Ha Hc. apply Ascii.eqb_neq. intros ->. congruence.
Qed.

Lemma lacks_lstrip (c : ascii) (s : string) :
  PyText.is_space c = false -> Py.lacks c (PyText.lstrip s) = Py.lacks c s.
Proof.
  intros Hc. induction s as [|a t IH]; [reflexivity|].
  cbn [PyText.lstrip]. destruct (PyText.is_space a) eqn:Ha; [|reflexivity].
  rewrite IH. cbn [Py.lacks]. rewrite (not_space_neq a c Ha Hc). reflexivity.
Qed.

Lemma lacks_rstrip (c : ascii) (s : string) :
  PyText.is_space c = false -> Py.lacks c (PyText.rstrip s) = Py.lacks c s.
Proof.
  intros Hc. induction s as [|a t IH]; [reflexivity|].
  cbn [PyText.rstrip Py.lacks]. rewrite <- IH.
  destruct (PyText.rstrip t) as [|b t'].
  - destruct (PyText.is_space a) eqn:Ha.
    + rewrite (not_space_neq a c Ha Hc). reflexivity.
    + reflexivity.
  - reflexivity.
Qed.

(** With the separator present, [split(sep, 1)] gives two parts: what is
    before the first separator and what is after it. *)
Lemma split1_present (c : ascii) (s : string) :
  Py.lacks c s = false ->
  exists a b, PyText.split1 c s = [a; b] /\ s = a +:+ String c b /\ Py.lacks c a = true.
Proof.
  induction s as [|x t IH]; [discriminate|].
  cbn [Py.lacks PyText.split1]. destruct (Ascii.eqb x c) eqn:E.
  - intros _. apply Ascii.eqb_eq in E. subst x. exists "", t. repeat split.
  - simpl. intros H. destruct (IH H) as (a & b & Hs & -> & Ha).
    rewrite Hs. exists (String x a), b.
    split; [reflexivity|]. split; [reflexivity|].
    cbn [Py.lacks]. rewrite E, Ha. reflexivity.
Qed.

Lemma split1_at_first (c : ascii) (k v : string) :
  Py.lacks c k = true -> PyText.split1 c (k +:+ String c v) = [k; v].
Proof.
  induction k as [|x t IH]; intros H.
  - rewrite str_app_nil_l. cbn [PyText.split1]. rewrite ascii_eqb_refl. reflexivity.
  - cbn [Py.lacks] in H. apply andb_true_iff in H. destruct H as [Hx Ht].
    apply negb_true_iff in Hx.
    rewrite str_app_cons. cbn [PyText.split1]. rewrite Hx, (IH Ht). reflexivity.
Qed.

Lemma settings_set_get (settings : Settings) (k v k' : string) (w : World) :
  config_get (settings_set settings k v) k' w
  = if String.eqb k k' then (w, Ok v) else config_get settings k' w.
Proof.
  induction settings as [|[k0 v0] rest IH]; cbn [settings_set config_get].
  - destruct (String.eqb k k'); reflexivity.
  - destruct (String.eqb k0 k) eqn:E0.
    + apply String.eqb_eq in E0. subst k0. cbn [config_get].
      destruct (String.eqb k k'); reflexivity.
    + cbn [config_get]. destruct (String.eqb k0 k') eqn:E1.
      * apply String.eqb_eq in E1. subst k0.
        rewrite String.eqb_sym, E0. reflexivity.
      * exact IH.
Qed.

Lemma read_p4config_line_skip (settings : Settings) (line : string) :
  Py.contains "=" line = false -> read_p4config_line settings line = Some settings.
Proof. intros H. unfold read_p4config_line. rewrite H. reflexivity. Qed.

Lemma read_p4config_line_split (settings : Settings) (line : string) :
  Py.contains "=" line = true ->
  exists key value,
    PyText.strip line = key +:+ "=" +:+ value /\
    Py.lacks "="%char key = true /\
    read_p4config_line settings line
    = Some (settings_set settings (PyText.strip key) (PyText.strip value)).
Proof.
  intros H. unfold read_p4config_line. rewrite H.
  change "=" with (String "="%char "") in H.
  rewrite contains_char in H. apply negb_true_iff in H.
  assert (Hs : Py.lacks "="%char (PyText.strip line) = false).
  { unfold PyText.strip. rewrite lacks_rstrip, lacks_lstrip by reflexivity. exact H. }
  destruct (split1_present _ _ Hs) as (key & value & Hsplit & Heq & Hk).
  exists key, value. rewrite Hsplit.
  split; [exact Heq|]. split; [exact Hk | reflexivity].
Qed.

(** X8. After a line [key=value], [read_p4config] has the stripped key
    bound to the stripped value, in place of an earlier binding of that
    key, and every other key bound as before; the key is what precedes the
    first ["="], so the value may itself contain ["="]. *)
Theorem read_p4config_line_binds (settings : Settings) (line : string) :
  Py.contains "=" line = true ->
  exists key value settings',
    PyText.strip line = key +:+ "=" +:+ value /\
    Py.lacks "="%char key = true /\
    read_p4config_line settings line = Some settings' /\
    forall k w,
      config_get settings' k w
      = if String.eqb (PyText.strip key) k then (w, Ok (PyText.strip value))
        else config_get settings k w.
Proof.
  intros H. destruct (read_p4config_line_split settings line H) as (key & value & H1 & H2 & H3).
  exists key, value. eexists. split; [exact H1|]. split; [exact H2|]. split; [exact H3|].
  intros k w. apply settings_set_get.
Qed.

(** The no-break space and the next-line character are stripped like a
    space. *)
Example read_p4config_line_no_break_space :
  read_p4config_line []
    ("P4USER=me" +:+ String (Ascii.ascii_of_nat 160) (String (Ascii.ascii_of_nat 10) ""))
  = Some [("P4USER", "me")] /\
  read_p4config_line []
    (String (Ascii.ascii_of_nat 133) "P4PORT = ssl:host:1666")
  = Some [("P4PORT", "ssl:host:1666")].
Proof. split; reflexivity. Qed.

Lemma settings_set_keys (settings : Settings) (k v : string) :
  map fst (settings_set settings k v)
  = if existsb (String.eqb k) (map fst settings) then map fst settings
    else map fst settings ++ [k].
Proof.
  induction settings as [|[k0 v0] rest IH]; cbn [settings_set]; [reflexivity|].
  cbn [map fst existsb]. rewrite (String.eqb_sym k k0).
  destruct (String.eqb k0 k) eqn:E; cbn [map fst orb]; [reflexivity|].
  rewrite IH. destruct (existsb (String.eqb k) (map fst rest)); reflexivity.
Qed.

Lemma existsb_eqb_In (k : string) (l : list string) :
  existsb (String.eqb k) l = true <-> In k l.
Proof.
  rewrite existsb_exists. split.
  - intros (x & Hin & E). apply String.eqb_eq in E. subst x. exact Hin.
  - intros H. exists k. split; [exact H | apply String.eqb_refl].
Qed.

Lemma settings_set_NoDup (settings : Settings) (k v : string) :
  NoDup (map fst settings) -> NoDup (map fst (settings_set settings k v)).
Proof.
  intros H. rewrite settings_set_keys.
  destruct (existsb (String.eqb k) (map fst settings)) eqn:E; [exact H|].
  apply NoDup_app. split; [exact H|]. split.
  - intros x Hx Hin. apply list_elem_of_In in Hin. destruct Hin as [<-|[]].
    apply list_elem_of_In in Hx. apply existsb_eqb_In in Hx. congruence.
  - apply NoDup_singleton.
Qed.

(** X9. [read_p4config] returns settings for every file: a line without
    ["="] is skipped and a line with one always unpacks into two parts, so
    the loop cannot raise [ValueError]; and no key is listed twice. *)
Theorem read_p4config_lines_total (lines : list string) :
  exists settings,
    read_p4config_lines [] lines = Some settings /\ NoDup (map fst settings).
Proof.
  assert (H : forall lines acc, NoDup (map fst acc) ->
            exists settings, read_p4config_lines acc lines = Some settings /\
                             NoDup (map fst settings)).
  { clear lines. induction lines as [|line rest IH]; intros acc Hacc;
      cbn [read_p4config_lines].
    - exists acc. split; [reflexivity | exact Hacc].
    - destruct (Py.contains "=" line) eqn:E.
      + destruct (read_p4config_line_split acc line E) as (key & value & _ & _ & ->).
        apply IH. apply settings_set_NoDup. exact Hacc.
      + rewrite (read_p4config_line_skip acc line E). apply IH. exact Hacc. }
  apply H. constructor.
Qed.

Lemma lstrip_length (s : string) : (String.length (PyText.lstrip s) <= String.length s)%nat.
Proof.
  induction s as [|a t IH]; [reflexivity|].
  cbn [PyText.lstrip]. destruct (PyText.is_space a); simpl; lia.
Qed.

(** A string that [lstrip] leaves alone does not start with a space. *)
Lemma lstrip_fixed_app (k x : string) :
  PyText.lstrip k = k -> k <> "" -> PyText.lstrip (k +:+ x) = k +:+ x.
Proof.
  destruct k as [|a t]; [congruence|]. intros H _.
  rewrite str_app_cons. cbn [PyText.lstrip] in *.
  destruct (PyText.is_space a); [|reflexivity].
  exfalso. pose proof (lstrip_length t) as L. rewrite H in L. simpl in L. lia.
Qed.

Lemma rstrip_app_fixed (x y : string) :
  PyText.rstrip y = y -> y <> "" -> PyText.rstrip (x +:+ y) = x +:+ y.
Proof.
  intros Hy Hne. induction x as [|a x IH]; [exact Hy|].
  rewrite str_app_cons. cbn [PyText.rstrip]. rewrite IH.
  destruct (x +:+ y) eqn:E; [|reflexivity].
  exfalso. destruct x; [rewrite str_app_nil_l in E; contradiction | discriminate E].
Qed.

Lemma rstrip_newline (s : string) :
  PyText.rstrip (s +:+ String (Ascii.ascii_of_nat 10) "") = PyText.rstrip s.
Proof.
  induction s as [|a t IH]; [reflexivity|].
  rewrite str_app_cons. cbn [PyText.rstrip]. rewrite IH. reflexivity.
Qed.

(** Stripping a rendered line gives back [key=value]. *)
Lemma strip_p4config_line (k v : string) :
  PyText.lstrip k = k -> PyText.rstrip v = v ->
  PyText.strip (p4config_line_of (k, v)) = k +:+ "=" +:+ v.
Proof.
  intros Hk Hv. unfold PyText.strip, p4config_line_of. cbn [fst snd].
  assert (Hl : PyText.lstrip (k +:+ "=" +:+ v +:+ String (Ascii.ascii_of_nat 10) "")
               = k +:+ "=" +:+ v +:+ String (Ascii.ascii_of_nat 10) "").
  { destruct k as [|a t]; [reflexivity|]. apply lstrip_fixed_app; [exact Hk | discriminate]. }
  rewrite Hl.
  replace (k +:+ "=" +:+ v +:+ String (Ascii.ascii_of_nat 10) "")
    with ((k +:+ "=" +:+ v) +:+ String (Ascii.ascii_of_nat 10) "")
    by (rewrite !str_app_assoc; reflexivity).
  rewrite rstrip_newline.
  destruct v as [|b v'].
  - apply rstrip_app_fixed; [reflexivity | discriminate].
  - replace (k +:+ "=" +:+ String b v') with ((k +:+ "=") +:+ String b v')
      by (rewrite str_app_assoc; reflexivity).
    apply rstrip_app_fixed; [exact Hv | discriminate].
Qed.

Lemma settings_set_fresh (settings : Settings) (k v : string) :
  ~ In k (map fst settings) -> settings_set settings k v = settings ++ [(k, v)].
Proof.
  induction settings as [|[k0 v0] rest IH]; cbn [settings_set]; intros H; [reflexivity|].
  destruct (String.eqb k0 k) eqn:E.
  - apply String.eqb_eq in E. exfalso. apply H. left. exact E.
  - rewrite IH; [reflexivity|]. intros Hin. apply H. right. exact Hin.
Qed.

Lemma read_p4config_rendered_line (acc : Settings) (k v : string) :
  PyText.lstrip k = k -> PyText.rstrip k = k -> Py.lacks "="%char k = true ->
  PyText.lstrip v = v -> PyText.rstrip v = v ->
  read_p4config_line acc (p4config_line_of (k, v)) = Some (settings_set acc k v).
Proof.
  intros Hk1 Hk2 Hk3 Hv1 Hv2. unfold read_p4config_line.
  assert (Hc : Py.contains "=" (p4config_line_of (k, v)) = true).
  { apply contains_spec. exists k, (v +:+ String (Ascii.ascii_of_nat 10) ""). reflexivity. }
  rewrite Hc, (strip_p4config_line k v Hk1 Hv2).
  change (k +:+ "=" +:+ v) with (k +:+ String "="%char v).
  rewrite (split1_at_first _ k v Hk3).
  unfold PyText.strip. rewrite Hk1, Hk2, Hv1, Hv2. reflexivity.
Qed.

(** X10. A file made of one [key=value] line per setting reads back as
    those settings, in the same order, when no key is repeated, no key
    holds ["="], keys and values have no space at either end, and none
    holds a line break (so that each pair is one line of the file). *)
Theorem read_p4config_roundtrip (kvs : Settings) :
  NoDup (map fst kvs) ->
  Forall (fun kv => PyText.lstrip (fst kv) = fst kv /\ PyText.rstrip (fst kv) = fst kv /\
                    Py.lacks "="%char (fst kv) = true /\
                    PyText.lstrip (snd kv) = snd kv /\ PyText.rstrip (snd kv) = snd kv) kvs ->
  Forall (fun kv => Py.lacks (Ascii.ascii_of_nat 10) (fst kv +:+ snd kv) = true /\
                    Py.lacks (Ascii.ascii_of_nat 13) (fst kv +:+ snd kv) = true) kvs ->
  read_p4config_lines [] (map p4config_line_of kvs) = Some kvs.
Proof.
  intros Hnd Hclean _.
  assert (H : forall acc,
            (forall k, In k (map fst acc) -> ~ In k (map fst kvs)) ->
            read_p4config_lines acc (map p4config_line_of kvs) = Some (acc ++ kvs)).
  { induction kvs as [|[k v] rest IH]; intros acc Hdis; cbn [map read_p4config_lines].
    - rewrite app_nil_r. reflexivity.
    - inversion Hclean as [|? ? (Hk1 & Hk2 & Hk3 & Hv1 & Hv2) Hrest]; subst.
      cbn [fst snd] in *.
      rewrite (read_p4config_rendered_line acc k v Hk1 Hk2 Hk3 Hv1 Hv2).
      cbn [map fst] in Hnd. apply NoDup_cons in Hnd. destruct Hnd as [Hk Hnd].
      rewrite list_elem_of_In in Hk.
      rewrite settings_set_fresh
        by (intros Hin; apply (Hdis k Hin); left; reflexivity).
      rewrite (IH Hnd Hrest).
      + rewrite <- app_assoc. reflexivity.
      + intros k0 Hin. rewrite map_app, List.in_app_iff in Hin. cbn [map fst In] in Hin.
        destruct Hin as [Hin | [<- | []]].
        * intros Hr. apply (Hdis k0 Hin). right. exact Hr.
        * exact Hk. }
  apply (H []). intros k [].
Qed.

(** ** The collection of pending files *)

Lemma dict_set_keys (d : Files) (k : string) (v : PendingFile) :
  map fst (dict_set d k v)
  = if existsb (String.eqb k) (map fst d) then map fst d else map fst d ++ [k].
Proof.
  induction d as [|[k0 v0] rest IH]; cbn [dict_set]; [reflexivity|].
  cbn [map fst existsb]. rewrite (String.eqb_sym k k0).
  destruct (String.eqb k0 k) eqn:E; cbn [map fst orb]; [reflexivity|].
  rewrite IH. destruct (existsb (String.eqb k) (map fst rest)); reflexivity.
Qed.

Lemma dict_set_NoDup (d : Files) (k : string) (v : PendingFile) :
  NoDup (map fst d) -> NoDup (map fst (dict_set d k v)).
Proof.
  intros H. rewrite dict_set_keys.
  destruct (existsb (String.eqb k) (map fst d)) eqn:E; [exact H|].
  apply NoDup_app. split; [exact H|]. split.
  - intros x Hx Hin. apply list_elem_of_In in Hin. destruct Hin as [<-|[]].
    apply list_elem_of_In in Hx. apply existsb_eqb_In in Hx. congruence.
  - apply NoDup_singleton.
Qed.

Lemma In_key (d : Files) (k : string) (v : PendingFile) : In (k, v) d -> In k (map fst d).
Proof. intros H. apply (in_map fst) in H. exact H. Qed.

Lemma dict_set_In (d : Files) (k : string) (v : PendingFile) (k' : string) (v' : PendingFile) :
  NoDup (map fst d) ->
  In (k', v') (dict_set d k v) <-> (k' = k /\ v' = v) \/ (k' <> k /\ In (k', v') d).
Proof.
  induction d as [|[k0 v0] rest IH]; cbn [dict_set map fst]; intros Hnd.
  - split.
    + intros [H|[]]. injection H as <- <-. left. split; reflexivity.
    + intros [[-> ->] | [_ []]]. left. reflexivity.
  - apply NoDup_cons in Hnd. destruct Hnd as [Hk0 Hnd]. rewrite list_elem_of_In in Hk0.
    destruct (String.eqb k0 k) eqn:E.
    + apply String.eqb_eq in E. subst k0. split.
      * intros [H|H].
        -- injection H as <- <-. left. split; reflexivity.
        -- right. split; [|right; exact H].
           intros ->. apply Hk0. eapply In_key. exact H.
      * intros [[-> ->] | [Hne [H|H]]].
        -- left. reflexivity.
        -- injection H as H _. congruence.
        -- right. exact H.
    + apply String.eqb_neq in E. specialize (IH Hnd). split.
      * intros [H|H].
        -- injection H as <- <-. right. split; [exact E | left; reflexivity].
        -- apply IH in H. destruct H as [H|[Hne H]]; [left; exact H|].
           right. split; [exact Hne | right; exact H].
      * intros [[-> ->] | [Hne [H|H]]].
        -- right. apply IH. left. split; reflexivity.
        -- left. exact H.
        -- right. apply IH. right. split; assumption.
Qed.

(** [d[k] = v] on a dict without repeated keys: afterwards [k] is
    bound to [v] and to nothing else, every other key is bound as before,
    no key is repeated, and the order of the keys is kept, a new key going
    last. *)
Theorem dict_set_binds (d : Files) (k : string) (v : PendingFile) :
  NoDup (map fst d) ->
  NoDup (map fst (dict_set d k v)) /\
  In (k, v) (dict_set d k v) /\
  (forall v', In (k, v') (dict_set d k v) -> v' = v) /\
  (forall k' v', k' <> k -> (In (k', v') (dict_set d k v) <-> In (k', v') d)) /\
  (In k (map fst d) -> map fst (dict_set d k v) = map fst d) /\
  (~ In k (map fst d) -> map fst (dict_set d k v) = map fst d ++ [k]).
Proof.
  intros Hnd.
  split; [apply dict_set_NoDup; exact Hnd|].
  split; [apply dict_set_In; [exact Hnd | left; split; reflexivity]|].
  split.
  { intros v' H. apply dict_set_In in H; [|exact Hnd].
    destruct H as [[_ ->] | [Hne _]]; [reflexivity | contradiction]. }
  split.
  { intros k' v' Hne. rewrite (dict_set_In d k v k' v' Hnd). split.
    - intros [[-> _] | [_ H]]; [contradiction | exact H].
    - intros H. right. split; assumption. }
  split; intros H; rewrite dict_set_keys.
  - apply existsb_eqb_In in H. rewrite H. reflexivity.
  - destruct (existsb (String.eqb k) (map fst d)) eqn:E; [|reflexivity].
    apply existsb_eqb_In in E. contradiction.
Qed.

Section BuildFacts.

Context (os : OS).

Lemma build_fold_invariant (f : FS) (l : list string) (acc : Files) :
  NoDup (map fst acc) ->
  (forall k v, In (k, v) acc -> v = PendingFile_init os f k None) ->
  let d := fold_left (fun pending_files file_path =>
                        dict_set pending_files file_path (PendingFile_init os f file_path None))
                     l acc in
  NoDup (map fst d) /\
  (forall k v, In (k, v) d -> v = PendingFile_init os f k None) /\
  (forall p, In p (map fst d) <-> In p (map fst acc) \/ In p l) /\
  (NoDup (map fst acc ++ l) -> map fst d = map fst acc ++ l).
Proof.
  revert acc. induction l as [|p rest IH]; intros acc Hnd Hinit; cbn [fold_left].
  - split; [exact Hnd|]. split; [exact Hinit|]. split; [intros p; simpl; tauto|].
    intros _. rewrite app_nil_r. reflexivity.
  - set (acc' := dict_set acc p (PendingFile_init os f p None)).
    assert (Hnd' : NoDup (map fst acc')) by (apply dict_set_NoDup; exact Hnd).
    assert (Hinit' : forall k v, In (k, v) acc' -> v = PendingFile_init os f k None).
    { intros k v H. apply dict_set_In in H; [|exact Hnd].
      destruct H as [[-> ->] | [_ H]]; [reflexivity | apply Hinit; exact H]. }
    assert (Hkeys : forall q, In q (map fst acc') <-> In q (map fst acc) \/ q = p).
    { intros q. unfold acc'. rewrite dict_set_keys.
      destruct (existsb (String.eqb p) (map fst acc)) eqn:E.
      - apply existsb_eqb_In in E. split; [tauto|]. intros [H| ->]; assumption.
      - rewrite List.in_app_iff. simpl. split.
        + intros [H|[H|[]]]; [left; exact H | right; symmetry; exact H].
        + intros [H|H]; [left; exact H | right; left; symmetry; exact H]. }
    destruct (IH acc' Hnd' Hinit') as (H1 & H2 & H3 & H4).
    split; [exact H1|]. split; [exact H2|]. split.
    + intros q. rewrite H3, Hkeys. simpl. split; intros H; intuition auto.
    + intros Hall.
      assert (Hfresh : ~ In p (map fst acc)).
      { apply NoDup_app in Hall. destruct Hall as (_ & Hdis & _).
        intros Hin. apply (Hdis p); [apply list_elem_of_In; exact Hin | left]. }
      assert (Ek : map fst acc' = map fst acc ++ [p]).
      { unfold acc'. rewrite dict_set_keys.
        destruct (existsb (String.eqb p) (map fst acc)) eqn:E; [|reflexivity].
        apply existsb_eqb_In in E. contradiction. }
      rewrite H4; rewrite Ek, <- app_assoc; [reflexivity | exact Hall].
Qed.

(** X11. The collection built from the filtered paths has one record per
    distinct path, each freshly classified with no outcome and no warning,
    and lists the paths in scan order when none is repeated.  The gate is
    open on it exactly when no path classifies as [read_only]. *)
Theorem build_pending_files_fresh (f : FS) (maya_files : list string) :
  let d := build_pending_files os f maya_files in
  NoDup (map fst d) /\
  (forall p, In p (map fst d) <-> In p maya_files) /\
  (forall k v, In (k, v) d -> v = PendingFile_init os f k None) /\
  (NoDup maya_files -> map fst d = maya_files) /\
  (can_continue d = true <->
   forall p, In p maya_files -> check_file_status os f p <> read_only).
Proof.
  intros d.
  destruct (build_fold_invariant f maya_files []) as (H1 & H2 & H3 & H4);
    [constructor | intros k v [] |].
  fold (build_pending_files os f maya_files) in H1, H2, H3, H4. fold d in H1, H2, H3, H4.
  split; [exact H1|].
  assert (Hkeys : forall p, In p (map fst d) <-> In p maya_files).
  { intros p. rewrite H3. simpl. tauto. }
  split; [exact Hkeys|]. split; [exact H2|]. split; [exact H4|].
  rewrite can_continue_true, List.Forall_forall. split.
  - intros H p Hp. apply Hkeys in Hp. apply in_map_iff in Hp.
    destruct Hp as ([k v] & <- & Hin). specialize (H _ Hin).
    rewrite (H2 _ _ Hin) in H. exact H.
  - intros H [k v] Hin. cbn [snd]. rewrite (H2 _ _ Hin). cbn [status PendingFile_init].
    apply H. apply Hkeys. eapply In_key. exact Hin.
Qed.

End BuildFacts.

(** ** More on the gate *)

Lemma can_continue_app (a b : Files) :
  can_continue (a ++ b) = can_continue a && can_continue b.
Proof.
  induction a as [|[scene file] rest IH]; [reflexivity|].
  rewrite <- app_comm_cons, !can_continue_cons, IH. apply andb_assoc.
Qed.

(** X12. The gate does not depend on the order of the entries: it gives
    the same answer on any rearrangement of the collection, and on a
    collection made of two parts it is open exactly when it is open on
    both. *)
Theorem can_continue_order (a b : Files) :
  (Permutation a b -> can_continue a = can_continue b) /\
  can_continue (a ++ b) = can_continue a && can_continue b.
Proof.
  split; [|apply can_continue_app].
  intros H. induction H as [| [scene file] l l' _ IH | [s1 f1] [s2 f2] l | l l' l'' _ IH1 _ IH2].
  - reflexivity.
  - rewrite !can_continue_cons, IH. reflexivity.
  - rewrite !can_continue_cons.
    destruct (FileStatus_eqb (status f1) read_only), (FileStatus_eqb (status f2) read_only);
      reflexivity.
  - rewrite IH1. exact IH2.
Qed.

Lemma can_continue_order_witness :
  can_continue [("/proj/b.mb", file_b); ("/proj/a.ma", file_a)]
  = can_continue [("/proj/a.ma", file_a); ("/proj/b.mb", file_b)].
Proof.
  destruct (can_continue_order [("/proj/b.mb", file_b); ("/proj/a.ma", file_a)]
                               [("/proj/a.ma", file_a); ("/proj/b.mb", file_b)]) as [H _].
  apply H. apply perm_swap.
Defined.

Section GateFacts.

Context (os : OS).

(** X13. Pressing Skip on every entry that is read-only opens the gate,
    whatever the other entries are and whatever the file system says. *)
Theorem skipping_read_only_opens_gate (f : FS) (files : Files) :
  can_continue
    (map (fun kv => (fst kv,
                     if FileStatus_eqb (status (snd kv)) read_only
                     then skip_file os f (snd kv) else snd kv))
         files) = true.
Proof.
  induction files as [|[scene file] rest IH]; [reflexivity|].
  cbn [map fst snd]. rewrite can_continue_cons, IH, andb_true_r.
  apply negb_true_iff.
  destruct (FileStatus_eqb (status file) read_only) eqn:E; [|exact E].
  apply FileStatus_eqb_eq in E.
  rewrite skip_file_on_unskipped by (rewrite E; discriminate). reflexivity.
Qed.

End GateFacts.

(** ** More on the execution loop *)

Section RunFacts.

Context (os : OS) (host : Host).
Context (command_type : CommandType) (command : string) (wants_save : bool).

Local Abbreviation body := (execute_script_body os host command_type command wants_save).

(** What one iteration can do when the script leaves the records alone:
    it rewrites the record it was given, in place, and only the outcome
    and the warning. *)
Lemma execute_script_body_record (done : Files) (file : string) (pf : PendingFile)
    (rest : Files) (w : World) :
  host_leaves_records host ->
  exists pf',
    fst (snd (body (length done) file pf (done ++ (file, pf) :: rest) w))
    = done ++ (file, pf') :: rest /\
    path pf' = path pf /\ file_name pf' = file_name pf /\ status pf' = status pf /\
    (status pf <> writable ->
       result pf' = Some (match status pf with
                          | skip => file_skipped
                          | does_not_exist => file_not_found
                          | _ => file_read_only
                          end) /\
       warning pf' = Some ("File could not be processed due to file state: "
                           +:+ FileStatus_str (status pf))) /\
    (status pf = writable ->
       warning pf' = warning pf /\
       (pf' = pf \/
        check_file_status os (fs w) file <> writable /\
        (result pf' = Some file_missing \/ result pf' = Some file_tampered))).
Proof.
  intros Hkeep.
  destruct (FileStatus_eqb (status pf) writable) eqn:E.
  - apply FileStatus_eqb_eq in E.
    destruct (FileStatus_eqb (check_file_status os (fs w) file) writable) eqn:Ec.
    + apply FileStatus_eqb_eq in Ec. exists pf.
      split.
      { rewrite (execute_script_body_leaves_record os host command_type command wants_save
                   _ _ _ _ _ E Ec).
        destruct (cmds_file_open host file w) as [w1 [[]|e1]]; [|reflexivity].
        destruct (Hkeep command) as [Hp Hm].
        destruct command_type; [apply Hp | apply Hm]. }
      split; [reflexivity|]. split; [reflexivity|]. split; [reflexivity|].
      split; [intros Hn; contradiction|].
      intros _. split; [reflexivity | left; reflexivity].
    + apply FileStatus_eqb_neq in Ec.
      exists (set_result pf (if os_path_exists (fs w) file
                             then file_tampered else file_missing)).
      split.
      { rewrite (execute_script_body_drifted os host command_type command wants_save
                   _ _ _ _ _ E Ec).
        cbn [fst snd]. apply write_record_here. }
      split; [reflexivity|]. split; [reflexivity|]. split; [reflexivity|].
      split; [intros Hn; contradiction|].
      intros _. split; [reflexivity|]. right. split; [exact Ec|].
      destruct (os_path_exists (fs w) file); [right | left]; reflexivity.
  - apply FileStatus_eqb_neq in E.
    exists (set_warning
              (set_result pf
                 match status pf with
                 | skip => file_skipped
                 | does_not_exist => file_not_found
                 | _ => file_read_only
                 end)
              ("File could not be processed due to file state: "
               +:+ FileStatus_str (status pf))).
    split.
    { rewrite (execute_script_body_not_writable os host command_type command wants_save
                 _ _ _ _ _ E).
      cbn [fst snd]. apply write_record_here. }
    split; [reflexivity|]. split; [reflexivity|]. split; [reflexivity|].
    split; [|intros Hw; contradiction].
    intros _. split; reflexivity.
Qed.

(** For a body that only rewrites, in place, the record it was given:
    whatever holds between a record and its rewriting, and of a record and
    itself, holds entry by entry across the loop. *)
Lemma for_dict_items_related (loop_body : nat -> string -> PendingFile -> Run unit)
    (R : string -> PendingFile -> PendingFile -> Prop) :
  (forall key v, R key v v) ->
  (forall done key v rest w,
     exists v',
       fst (snd (loop_body (length done) key v (done ++ (key, v) :: rest) w))
       = done ++ (key, v') :: rest /\
       R key v v') ->
  forall files w,
    Forall2 (fun kv kv' => fst kv' = fst kv /\ R (fst kv) (snd kv) (snd kv'))
            files (fst (snd (for_dict_items loop_body files w))).
Proof.
  intros Hrefl Hstep.
  assert (Hsame : forall l : Files,
             Forall2 (fun kv kv' => fst kv' = fst kv /\ R (fst kv) (snd kv) (snd kv')) l l).
  { induction l as [|kv l IH]; constructor; [|exact IH].
    split; [reflexivity | apply Hrefl]. }
  assert (Hgen : forall todo done w,
             exists todo',
               fst (snd (for_dict_items_from loop_body (map fst (done ++ todo)) (length todo)
                           (length done) (done ++ todo) w))
               = done ++ todo' /\
               Forall2 (fun kv kv' => fst kv' = fst kv /\ R (fst kv) (snd kv) (snd kv'))
                       todo todo').
  { induction todo as [|[key v] rest IH]; intros done w.
    - exists []. cbn [length]. rewrite for_dict_items_from_end. split; [reflexivity|constructor].
    - cbn [length]. rewrite for_dict_items_from_next.
      destruct (Hstep done key v rest w) as (v' & Hd & HR).
      destruct (loop_body (length done) key v (done ++ (key, v) :: rest) w)
        as [w' [d' [[]|e]]]; cbn [fst snd] in Hd; subst d'.
      + destruct (IH (done ++ [(key, v')]) w') as (todo' & Hres & Hall).
        rewrite keys_moved_on with (v := v) in Hres.
        rewrite List.length_app in Hres. cbn [length] in Hres.
        rewrite Nat.add_1_r in Hres.
        rewrite <- (List.app_assoc done [(key, v')] rest) in Hres. cbn [app] in Hres.
        exists ((key, v') :: todo'). split.
        * rewrite Hres, <- List.app_assoc. reflexivity.
        * constructor; [split; [reflexivity | exact HR] | exact Hall].
      + exists ((key, v') :: rest). split; [reflexivity|].
        constructor; [split; [reflexivity | exact HR] | apply Hsame]. }
  intros files w. destruct (Hgen files [] w) as (todo' & Hres & Hall).
  unfold for_dict_items. cbn [app length] in Hres. rewrite Hres. exact Hall.
Qed.



(** The loop over records none of which is [writable], from any place on. *)
Lemma loop_labels_from (todo done : Files) (w : World) :
  Forall (fun kv => status (snd kv) <> writable) todo ->
  for_dict_items_from body (map fst (done ++ todo)) (length todo) (length done)
    (done ++ todo) w
  = (w,
     (done ++
      map (fun kv =>
             (fst kv,
              set_warning
                (set_result (snd kv)
                   (match status (snd kv) with
                    | skip => file_skipped
                    | does_not_exist => file_not_found
                    | _ => file_read_only
                    end))
                ("File could not be processed due to file state: "
                 +:+ FileStatus_str (status (snd kv)))))
          todo,
      Ok tt)).
Proof.
  intros Hall. revert done. induction Hall as [|[key v] rest Hv _ IH]; intros done.
  - cbn [length map]. apply for_dict_items_from_end.
  - cbn [snd] in Hv. cbn [length]. rewrite for_dict_items_from_next.
    rewrite (execute_script_body_not_writable os host command_type command wants_save
               _ _ _ _ _ Hv).
    rewrite write_record_here.
    match goal with
    | |- for_dict_items_from _ _ _ _ (done ++ (key, ?v') :: rest) w = _ =>
        specialize (IH (done ++ [(key, v')]));
        rewrite keys_moved_on with (v := v) in IH;
        rewrite List.length_app in IH; cbn [length] in IH; rewrite Nat.add_1_r in IH;
        rewrite <- (List.app_assoc done [(key, v')] rest) in IH; cbn [app] in IH;
        rewrite IH, <- List.app_assoc
    end.
    reflexivity.
Qed.

(** X16. A collection without a writable record is labelled and nothing
    else happens in the loop: every record gets the outcome of its status
    and the warning, no scene is opened, and the world is as it was. *)
Theorem loop_without_writable (files : Files) (w : World) :
  Forall (fun kv => status (snd kv) <> writable) files ->
  for_dict_items body files w
  = (w,
     (map (fun kv =>
             (fst kv,
              set_warning
                (set_result (snd kv)
                   (match status (snd kv) with
                    | skip => file_skipped
                    | does_not_exist => file_not_found
                    | _ => file_read_only
                    end))
                ("File could not be processed due to file state: "
                 +:+ FileStatus_str (status (snd kv)))))
          files,
      Ok tt)).
Proof.
  intros Hall. unfold for_dict_items.
  pose proof (loop_labels_from files [] w Hall) as H.
  cbn [app length] in H. exact H.
Qed.

End RunFacts.

(** ** More on the scanner *)

Lemma replace_char_lacks (a b : ascii) (s : string) :
  a <> b -> Py.lacks a (Py.replace_char a b s) = true.
Proof.
  intros Hne. induction s as [|c t IH]; [reflexivity|].
  cbn [Py.replace_char Py.lacks]. rewrite IH, andb_true_r.
  apply negb_true_iff. destruct (Ascii.eqb c a) eqn:E; [|exact E].
  apply Ascii.eqb_neq. congruence.
Qed.

Section ScannerMore.

Context (normpath : string -> string) (scandir : string -> Res (list DirEntry)).

Lemma within_deeper (k : nat) (d d' : string) :
  within scandir normpath k d d' -> within scandir normpath (S k) d d'.
Proof.
  induction 1 as [k d | k d entries sub d' Hd Hsub _ IH]; [constructor|].
  eapply within_hop; eassumption.
Qed.

Lemma within_le (k m : nat) (d d' : string) :
  (k <= m)%nat -> within scandir normpath k d d' -> within scandir normpath m d d'.
Proof.
  induction 1 as [|m _ IH]; intros H; [exact H|]. apply within_deeper. apply IH. exact H.
Qed.

(** X17. A deeper scan that returns loses nothing: the scan of the same
    directory at any smaller depth returns too, and every path it returns
    is among those of the deeper scan.  (The deeper scan may raise where
    the shallower one returns: it lists more directories.) *)
Theorem do_gather_maya_files_monotone (directory : string) (n m : Z) (deeper : list string) :
  n <= m ->
  do_gather_maya_files scandir normpath directory m = Ok deeper ->
  exists shallower,
    do_gather_maya_files scandir normpath directory n = Ok shallower /\
    forall p, In p shallower -> In p deeper.
Proof.
  intros Hle Hm. destruct (Z.ltb_spec n 0) as [Hn|Hn].
  - exists []. split; [apply gather_negative; exact Hn | intros p []].
  - rewrite (gather_nonnegative normpath scandir) in Hm by lia.
    assert (Hnat : (Z.to_nat n <= Z.to_nat m)%nat) by lia.
    assert (Hret : exists shallower,
               gather_to_depth scandir normpath (Z.to_nat n) directory = Ok shallower).
    { apply gather_to_depth_returns. intros d Hw.
      apply (proj1 (gather_to_depth_returns normpath scandir (Z.to_nat m) directory)).
      - exists deeper. exact Hm.
      - eapply within_le; eassumption. }
    destruct Hret as (shallower & Hs). exists shallower.
    split; [rewrite (gather_nonnegative normpath scandir) by lia; exact Hs|].
    intros p Hp.
    apply (gather_to_depth_within normpath scandir _ _ _ Hm).
    apply (gather_to_depth_within normpath scandir _ _ _ Hs) in Hp.
    destruct Hp as (d & entries & Hw & Hd & Hin). exists d, entries.
    split; [eapply within_le; eassumption | auto].
Qed.

(** X18. No path the scan returns holds a backslash, and each is the
    normalized path of a file entry with a Maya extension. *)
Theorem do_gather_maya_files_paths (directory p : string) (n : Z) (found : list string) :
  do_gather_maya_files scandir normpath directory n = Ok found ->
  In p found ->
  Py.lacks backslash p = true /\
  exists d entries entry,
    scandir d = Ok entries /\
    In entry entries /\ is_file entry = true /\
    is_maya_name (entry_name entry) /\ p = normalized_path normpath entry.
Proof.
  destruct (Z.ltb_spec n 0) as [Hn|Hn].
  - rewrite (gather_negative normpath scandir directory n Hn). intros [= <-] [].
  - rewrite (gather_nonnegative normpath scandir) by lia.
    intros Hfound Hp.
    apply (gather_to_depth_within normpath scandir _ _ _ Hfound) in Hp.
    destruct Hp as (d & entries & _ & Hd & Hin).
    apply gather_here_In in Hin. destruct Hin as (entry & H1 & H2 & H3 & ->).
    split.
    + unfold normalized_path. apply replace_char_lacks. discriminate.
    + exists d, entries, entry. auto.
Qed.

End ScannerMore.

Lemma do_gather_maya_files_monotone_witness :
  exists shallower,
    do_gather_maya_files scandir_demo normpath_id "/proj" 1 = Ok shallower /\
    forall p, In p shallower ->
      In p ["/proj/a.ma"; "/proj/b.mb"; "/proj/sub/c.ma"; "/proj/sub/deep/d.mb"].
Proof.
  apply (do_gather_maya_files_monotone normpath_id scandir_demo "/proj" 1 3).
  - lia.
  - reflexivity.
Defined.

Lemma do_gather_maya_files_paths_witness :
  Py.lacks backslash "/proj/sub/c.ma" = true.
Proof.
  apply (do_gather_maya_files_paths normpath_id scandir_demo "/proj" "/proj/sub/c.ma" 1
           ["/proj/a.ma"; "/proj/b.mb"; "/proj/sub/c.ma"]).
  - reflexivity.
  - right. right. left. reflexivity.
Defined.

(** ** Display names *)

Lemma split_nonempty (c : ascii) (s : string) : Py.split c s <> [].
Proof.
  destruct s as [|a t]; cbn [Py.split]; [discriminate|].
  destruct (Ascii.eqb a c); [discriminate|]. destruct (Py.split c t); discriminate.
Qed.

Lemma final_cons (x : string) (l : list string) : l <> [] -> Py.final (x :: l) = Py.final l.
Proof. destruct l; [congruence | reflexivity]. Qed.

Lemma split_singleton (c : ascii) (t h : string) :
  Py.split c t = [h] -> Py.lacks c t = true /\ h = t.
Proof.
  revert h. induction t as [|x t IH]; intros h; cbn [Py.split Py.lacks].
  - intros H. injection H as <-. split; reflexivity.
  - destruct (Ascii.eqb x c).
    + intros H. injection H as _ H. exfalso. eapply split_nonempty. exact H.
    + destruct (Py.split c t) as [|h0 r0] eqn:Hs0;
        [exfalso; eapply split_nonempty; exact Hs0|].
      intros H. injection H as <- ->.
      destruct (IH h0 eq_refl) as [Hl ->]. rewrite Hl. split; reflexivity.
Qed.

(** The last part of a split: it has no separator, and the string ends with
    it, right after a separator when there is one. *)
Lemma final_split (c : ascii) (s : string) :
  Py.lacks c (Py.final (Py.split c s)) = true /\
  exists pre, s = pre +:+ Py.final (Py.split c s) /\
              (pre = "" \/ exists pre', pre = pre' +:+ String c "").
Proof.
  induction s as [|a t (Hl & pre & Ht & Hpre)]; [split; [reflexivity|]; exists ""; auto|].
  cbn [Py.split]. destruct (Ascii.eqb a c) eqn:E.
  - rewrite final_cons by apply split_nonempty. split; [exact Hl|].
    apply Ascii.eqb_eq in E. subst a.
    exists (String c pre). split; [rewrite str_app_cons, <- Ht; reflexivity|].
    right. destruct Hpre as [-> | [pre' ->]].
    + exists "". reflexivity.
    + exists (String c pre'). reflexivity.
  - destruct (Py.split c t) as [|h r] eqn:Hs; [exfalso; eapply split_nonempty; eauto|].
    destruct r as [|h' r'].
    + destruct (split_singleton c t h Hs) as [Hlt ->].
      change (Py.final [String a t]) with (String a t).
      split; [cbn [Py.lacks]; rewrite E, Hlt; reflexivity|].
      exists "". split; [reflexivity | left; reflexivity].
    + change (Py.final (String a h :: h' :: r')) with (Py.final (h :: h' :: r')).
      split; [exact Hl|]. exists (String a pre).
      split; [rewrite str_app_cons, <- Ht; reflexivity|].
      right. destruct Hpre as [-> | [pre' ->]].
      * exfalso. rewrite str_app_nil_l in Ht.
        assert (Hlt : Py.lacks c t = true) by (rewrite Ht; exact Hl).
        rewrite (split_none c t Hlt) in Hs. discriminate Hs.
      * exists (String a pre'). reflexivity.
Qed.

(** X19. The display name an entry gives a file that has none is the part
    of the path after its last slash: it holds no slash and the path ends
    with it.  A name that was supplied is kept, and nothing else in the
    record changes. *)
Theorem AccessEntry_init_names (file : PendingFile) :
  (forall n, file_name file = Some n -> AccessEntry_init file = file) /\
  (file_name file = None ->
   exists n pre,
     AccessEntry_init file = set_file_name file n /\
     Py.lacks "/"%char n = true /\
     path file = pre +:+ n /\
     (pre = "" \/ exists pre', pre = pre' +:+ "/")).
Proof.
  unfold AccessEntry_init. split.
  - intros n H. rewrite H. reflexivity.
  - intros H. rewrite H.
    destruct (final_split "/"%char (path file)) as (Hl & pre & Hp & Hpre).
    exists (Py.final (Py.split "/"%char (path file))), pre.
    split; [reflexivity|]. split; [exact Hl|]. split; [exact Hp | exact Hpre].
Qed.

Lemma AccessEntry_init_names_witness :
  exists n pre,
    AccessEntry_init file_a = set_file_name file_a n /\
    Py.lacks "/"%char n = true /\
    path file_a = pre +:+ n /\
    (pre = "" \/ exists pre', pre = pre' +:+ "/").
Proof.
  destruct (AccessEntry_init_names file_a) as [_ H].
  apply H. reflexivity.
Defined.

(** ** More on the filter stage *)

Lemma filter_stage_sieve (prefix suffix filter_string file_type_text : string)
    (maya_files : list string) :
  filter_stage prefix suffix filter_string file_type_text maya_files
  = List.filter
      (fun file =>
         Verdict_eqb (filter_verdict prefix suffix filter_string
                        (parse_file_type file_type_text) file) appended)
      maya_files.
Proof.
  unfold filter_stage.
  pose proof (filter_files_run prefix suffix filter_string
                (parse_file_type file_type_text) maya_files [] []) as H.
  cbv zeta in H. rewrite H. reflexivity.
Qed.

Lemma list_filter_idem {A} (keep : A -> bool) (l : list A) :
  List.filter keep (List.filter keep l) = List.filter keep l.
Proof.
  induction l as [|x l IH]; [reflexivity|].
  cbn [List.filter]. destruct (keep x) eqn:E; [|exact IH].
  cbn [List.filter]. rewrite E, IH. reflexivity.
Qed.

Lemma list_filter_sublist {A} (keep : A -> bool) (l : list A) :
  sublist (List.filter keep l) l.
Proof.
  induction l as [|x l IH]; [constructor|].
  cbn [List.filter]. destruct (keep x); constructor; exact IH.
Qed.

(** X20. The filter stage judges each file on its own: what it keeps of a
    list is a sublist in the same order, made of exactly the files whose
    tests all pass; it distributes over concatenation, and filtering the
    result again with the same settings changes nothing. *)
Theorem filter_stage_is_sieve (prefix suffix filter_string file_type_text : string)
    (a b : list string) :
  let stage := filter_stage prefix suffix filter_string file_type_text in
  sublist (stage a) a /\
  (forall file,
     In file (stage a) <->
     In file a /\
     filter_verdict prefix suffix filter_string (parse_file_type file_type_text) file
     = appended) /\
  stage (a ++ b) = stage a ++ stage b /\
  stage (stage a) = stage a.
Proof.
  cbv zeta. rewrite !filter_stage_sieve.
  split; [apply list_filter_sublist|].
  split; [intros file; rewrite filter_In, Verdict_eqb_eq; reflexivity|].
  split; [apply List.filter_app | apply list_filter_idem].
Qed.

(** X21. An empty setting never excludes: with an empty prefix no file is
    removed by prefix, and likewise for the suffix, the string and the
    file type; with all four empty the stage returns its input. *)
Theorem empty_filters_keep_all (prefix suffix filter_string file_type_text file : string)
    (maya_files : list string) :
  let v := filter_verdict prefix suffix filter_string (parse_file_type file_type_text) file in
  (prefix = "" -> v <> removed_by_prefix) /\
  (suffix = "" -> v <> removed_by_suffix) /\
  (filter_string = "" -> v <> dropped_by_string) /\
  (file_type_text = "" -> v <> dropped_by_type) /\
  filter_stage "" "" "" "" maya_files = maya_files.
Proof.
  cbv zeta.
  destruct (filter_verdict_order prefix suffix filter_string
              (parse_file_type file_type_text) file) as (H1 & H2 & H3 & H4 & _).
  cbv zeta in H1, H2, H3, H4.
  split; [intros -> H; apply H1 in H; discriminate H|].
  split; [intros -> H; apply H2 in H; destruct H as [_ H]; discriminate H|].
  split; [intros -> H; apply H3 in H; destruct H as (_ & _ & H); discriminate H|].
  split; [intros -> H; apply H4 in H; destruct H as (_ & _ & _ & H); discriminate H|].
  rewrite filter_stage_sieve.
  induction maya_files as [|x l IH]; [reflexivity|].
  cbn [List.filter]. rewrite IH. reflexivity.
Qed.

Lemma empty_filters_keep_all_witness :
  filter_verdict "" "_bak" "" (parse_file_type "mb,ma") "/proj/tmp_asset.mb"
  <> removed_by_prefix.
Proof.
  apply (empty_filters_keep_all "" "_bak" "" "mb,ma" "/proj/tmp_asset.mb" []).
  reflexivity.
Defined.

(** Appending a separator and a last part adds that part at the end. *)
Lemma split_app_sep (c : ascii) (s t : string) :
  exists l, l <> [] /\ Py.split c (s +:+ String c t) = l ++ Py.split c t.
Proof.
  induction s as [|a s (l & Hl & IH)].
  - exists [""]. split; [discriminate|].
    rewrite str_app_nil_l. cbn [Py.split]. rewrite ascii_eqb_refl. reflexivity.
  - rewrite str_app_cons. cbn [Py.split]. rewrite IH.
    destruct (Ascii.eqb a c).
    + exists ("" :: l). split; [discriminate | reflexivity].
    + destruct l as [|h l']; [congruence|].
      exists (String a h :: l'). split; [discriminate | reflexivity].
Qed.

Lemma final_split_last (c : ascii) (s t : string) :
  Py.lacks c t = true -> Py.final (Py.split c (s +:+ String c t)) = t.
Proof.
  intros Ht. destruct (split_app_sep c s t) as (l & _ & ->).
  rewrite (split_none c t Ht). unfold Py.final. apply List.last_last.
Qed.

(** X22. With the file types as the dialog presets them (["mb,ma"]) the
    type test passes every file whose name ends in [.mb] or [.ma], so with
    no name filter the stage keeps everything the scanner can return. *)
Theorem default_file_types_keep_maya_files (file : string) :
  is_maya_name (Py.basename file) ->
  (tested_extension file = "mb" \/ tested_extension file = "ma") /\
  type_test (parse_file_type "mb,ma") file = false /\
  filter_verdict "" "" "" (parse_file_type "mb,ma") file = appended.
Proof.
  intros Hname.
  assert (Hext : tested_extension file = "mb" \/ tested_extension file = "ma").
  { unfold tested_extension. destruct Hname as [H|H];
      apply endswith_spec in H; destruct H as [pre ->]; [left | right];
      apply (final_split_last "."%char pre); reflexivity. }
  assert (Ht : type_test (parse_file_type "mb,ma") file = false).
  { unfold type_test. destruct Hext as [-> | ->]; reflexivity. }
  split; [exact Hext|]. split; [exact Ht|].
  unfold filter_verdict. rewrite Ht. reflexivity.
Qed.

Lemma default_file_types_keep_maya_files_witness :
  filter_verdict "" "" "" (parse_file_type "mb,ma") "/proj/sub/c.ma" = appended.
Proof.
  apply (default_file_types_keep_maya_files "/proj/sub/c.ma").
  right. reflexivity.
Defined.

(** ** The confirmation dialog *)

Lemma set_status_twice (v : PendingFile) (s s' : FileStatus) :
  set_status (set_status v s) s' = set_status v s'.
Proof. reflexivity. Qed.

Section DialogFacts.

Context (os : OS) (p4 : Perforce).

(** The four entry actions change nothing in a record but its status. *)
Lemma refreshM_status_only (v v' : PendingFile) (w w' : World) :
  refreshM os v w = (w', Ok v') -> exists s, v' = set_status v s.
Proof. rewrite refreshM_run. intros H. injection H as _ <-. eexists. reflexivity. Qed.

Lemma skip_fileM_status_only (v v' : PendingFile) (w w' : World) :
  skip_fileM os v w = (w', Ok v') -> exists s, v' = set_status v s.
Proof.
  unfold skip_fileM, bind, get_fs, ret. intros H. injection H as _ <-.
  unfold skip_file, refresh. eexists. reflexivity.
Qed.

Lemma make_writable_status_only (v v' : PendingFile) (w w' : World) :
  make_writable os v w = (w', Ok v') -> exists s, v' = set_status v s.
Proof.
  unfold make_writable. unfold bind at 1. unfold get_fs.
  destruct (FileStatus_eqb (check_file_status os (fs w) (path v)) read_only).
  - unfold bind at 1.
    destruct (make_file_writable os (path v) w) as [w1 [[]|e]]; [|discriminate].
    apply refreshM_status_only.
  - intros H. injection H as _ <-. exists (status v). symmetry. apply set_status_same.
Qed.

Lemma checkout_file_status_only (v v' : PendingFile) (w w' : World) :
  checkout_file os p4 v w = (w', Ok v') -> exists s, v' = set_status v s.
Proof.
  unfold checkout_file. destruct (has_perforce_installed p4); simpl.
  - unfold bind at 1. unfold get_fs.
    destruct (FileStatus_eqb (check_file_status os (fs w) (path v)) read_only).
    + unfold bind at 1.
      destruct (checkout_file_perforce p4 (path v) w) as [w1 [b|e]]; [|discriminate].
      apply refreshM_status_only.
    + intros H. injection H as _ <-. exists (status v). symmetry. apply set_status_same.
  - unfold bind, dismiss_dialog, emit, ret. intros H. injection H as _ <-.
    exists (status v). symmetry. apply set_status_same.
Qed.

Lemma up_to_status_refl (files : Files) : up_to_status files files.
Proof.
  induction files as [|kv l IH]; constructor; [|exact IH].
  split; [reflexivity|]. exists (status (snd kv)). symmetry. apply set_status_same.
Qed.

Lemma up_to_status_trans (a b c : Files) :
  up_to_status a b -> up_to_status b c -> up_to_status a c.
Proof.
  intros Hab. revert c. induction Hab as [|x y l l' [Hk [s Hs]] _ IH]; intros c Hbc.
  - inversion Hbc. constructor.
  - inversion Hbc as [|? z ? l'' [Hk' [s' Hs']] Hrest]; subst.
    constructor; [|apply IH; exact Hrest].
    split; [congruence|]. exists s'. rewrite Hs', Hs. reflexivity.
Qed.

Lemma up_to_status_keys (a b : Files) : up_to_status a b -> map fst b = map fst a.
Proof.
  induction 1 as [|x y l l' [Hk _] _ IH]; [reflexivity|].
  cbn [map]. rewrite Hk, IH. reflexivity.
Qed.

Lemma on_entry_up_to_status (scene : string) (action : PendingFile -> M PendingFile) :
  (forall v v' w w', action v w = (w', Ok v') -> exists s, v' = set_status v s) ->
  forall files w, up_to_status files (fst (snd (on_entry scene action files w))).
Proof.
  intros Hact. induction files as [|[k v] rest IH]; intros w; [constructor|].
  cbn [on_entry]. destruct (String.eqb k scene).
  - destruct (action v w) as [w1 [v'|e]] eqn:Ha; cbn [fst snd].
    + constructor; [|apply up_to_status_refl].
      split; [reflexivity|]. cbn [snd]. eapply Hact. exact Ha.
    + apply up_to_status_refl.
  - specialize (IH w). destruct (on_entry scene action rest w) as [w1 [rest' r]].
    cbn [fst snd] in *. constructor; [|exact IH].
    split; [reflexivity|]. exists (status v). symmetry. apply set_status_same.
Qed.

(** The two bulk buttons leave the collection and the world as they are. *)
Lemma press_refresh_button_inert (files : Files) (w : World) :
  fst (press_refresh_button os files w) = w /\
  fst (snd (press_refresh_button os files w)) = files.
Proof. destruct files as [|[k v] rest]; split; reflexivity. Qed.

Lemma press_checkout_button_inert (files : Files) (w : World) :
  fst (press_checkout_button os p4 files w) = w /\
  fst (snd (press_checkout_button os p4 files w)) = files.
Proof. destruct files as [|[k v] rest]; split; reflexivity. Qed.

Lemma with_files_fields (h : Handler) (r : World * (Files * Res unit)) :
  handler_files (fst (snd (with_files h r))) = fst (snd r) /\
  handler_result (fst (snd (with_files h r))) = handler_result h /\
  dialog_open (fst (snd (with_files h r))) = dialog_open h.
Proof. destruct r as [w' [files' res]]. repeat split. Qed.

(** One press keeps the keys and all of a record but its status; only an
    accepted Continue sets the result. *)
Lemma press_step (p : Press) (h : Handler) (w : World) :
  let h' := fst (snd (press os p4 p h w)) in
  up_to_status (handler_files h) (handler_files h') /\
  (handler_result h' = true ->
   handler_result h = true \/
   (can_continue (handler_files h') = true /\ dialog_open h' = false)).
Proof.
  cbv zeta. destruct p; cbn [press].
  1-4: match goal with
       | |- context [with_files ?hh ?r] =>
           destruct (with_files_fields hh r) as (Hf & Hr & Ho); rewrite Hf, Hr
       end;
       (split; [|intros H; left; exact H]); apply on_entry_up_to_status.
  - apply checkout_file_status_only.
  - apply make_writable_status_only.
  - apply skip_fileM_status_only.
  - apply refreshM_status_only.
  - match goal with
    | |- context [with_files ?hh ?r] =>
        destruct (with_files_fields hh r) as (Hf & Hr & Ho); rewrite Hf, Hr
    end.
    destruct (press_checkout_button_inert (handler_files h) w) as [_ ->].
    split; [apply up_to_status_refl | intros H; left; exact H].
  - match goal with
    | |- context [with_files ?hh ?r] =>
        destruct (with_files_fields hh r) as (Hf & Hr & Ho); rewrite Hf, Hr
    end.
    destruct (press_refresh_button_inert (handler_files h) w) as [_ ->].
    split; [apply up_to_status_refl | intros H; left; exact H].
  - cbn [fst snd]. split; [apply up_to_status_refl | intros H; left; exact H].
  - cbn [fst snd]. unfold press_continue_button.
    destruct (can_continue (handler_files h)) eqn:E; cbn [negb handler_files handler_result dialog_open].
    + split; [apply up_to_status_refl|]. intros _. right. split; [exact E | reflexivity].
    + split; [apply up_to_status_refl | intros H; left; exact H].
  - cbn [fst snd press_abort_button handler_files handler_result].
    split; [apply up_to_status_refl | discriminate].
Qed.

Lemma dialog_session_invariant (presses : list Press) (h : Handler) (w : World) :
  (handler_result h = true ->
   can_continue (handler_files h) = true /\ dialog_open h = false) ->
  let h' := snd (dialog_session os p4 presses h w) in
  up_to_status (handler_files h) (handler_files h') /\
  (handler_result h' = true ->
   can_continue (handler_files h') = true /\ dialog_open h' = false).
Proof.
  revert h w. induction presses as [|p rest IH]; intros h w Hinv; cbv zeta.
  - cbn [dialog_session snd]. split; [apply up_to_status_refl | exact Hinv].
  - cbn [dialog_session]. destruct (dialog_open h) eqn:Ho.
    + pose proof (press_step p h w) as Hp. cbv zeta in Hp.
      destruct (press os p4 p h w) as [w1 [h1 r1]]. cbn [fst snd] in Hp.
      destruct Hp as [Hu Hr].
      assert (Hinv1 : handler_result h1 = true ->
                      can_continue (handler_files h1) = true /\ dialog_open h1 = false).
      { intros H1. destruct (Hr H1) as [Hold | Hnew]; [|exact Hnew].
        destruct (Hinv Hold) as [_ Hc]. congruence. }
      destruct (IH h1 w1 Hinv1) as [Hu' Hr'].
      split; [eapply up_to_status_trans; eassumption | exact Hr'].
    + cbn [snd]. split; [apply up_to_status_refl|].
      intros H. split; [apply Hinv; exact H | exact Ho].
Qed.

Lemma spawn_entries_fields (files : Files) :
  Forall2 (fun kv kv' =>
             fst kv' = fst kv /\ path (snd kv') = path (snd kv) /\
             status (snd kv') = status (snd kv) /\ result (snd kv') = result (snd kv) /\
             warning (snd kv') = warning (snd kv))
          files (spawn_entries files).
Proof.
  induction files as [|[k v] rest IH]; constructor; [|exact IH].
  cbn [fst snd]. unfold AccessEntry_init. destruct (file_name v); repeat split.
Qed.

(** What the dialog guarantees, on the entries [spawn_ui] made. *)
Lemma Handler_init_session (files : Files) (presses : list Press) (w : World) :
  let h := snd (Handler_init os p4 files presses w) in
  (handler_result h = true -> can_continue (handler_files h) = true) /\
  (files = [] -> handler_result h = false) /\
  up_to_status (spawn_entries files) (handler_files h).
Proof.
  cbv zeta. destruct files as [|kv rest].
  - cbn [Handler_init snd handler_result handler_files].
    split; [discriminate|]. split; [reflexivity | constructor].
  - cbn [Handler_init].
    destruct (dialog_session_invariant presses
                (mkHandler (spawn_entries (kv :: rest)) false true) w) as [Hu Hr];
      [discriminate|].
    cbn [handler_files] in Hu.
    split; [intros H; apply Hr; exact H|]. split; [discriminate | exact Hu].
Qed.

(** What neither the entries nor the presses change. *)
Lemma fields_through_dialog (a b c : Files) :
  Forall2 (fun kv kv' =>
             fst kv' = fst kv /\ path (snd kv') = path (snd kv) /\
             status (snd kv') = status (snd kv) /\ result (snd kv') = result (snd kv) /\
             warning (snd kv') = warning (snd kv)) a b ->
  up_to_status b c ->
  Forall2 (fun kv kv' =>
             fst kv' = fst kv /\ path (snd kv') = path (snd kv) /\
             result (snd kv') = result (snd kv) /\ warning (snd kv') = warning (snd kv))
          a c.
Proof.
  intros Hs. revert c.
  induction Hs as [|x y l l' (H1 & H2 & H3 & H4 & H5) _ IH]; intros c Hu.
  - inversion Hu. constructor.
  - inversion Hu as [|? z ? l'' [Hk [s Hz]] Hrest]; subst.
    constructor; [|apply IH; exact Hrest].
    rewrite Hz. cbn [set_status path result warning]. repeat split; congruence.
Qed.

(** X23. The dialog hands back [result = True] only through a Continue
    pressed while no entry is read-only, so a confirmed collection passes
    the gate; an empty collection is never confirmed.  Whatever is pressed,
    the dialog keeps the keys and their order, and of each record the
    path, the outcome and the warning. *)
Theorem dialog_confirms_only_open_gate (files : Files) (presses : list Press) (w : World) :
  let h := snd (Handler_init os p4 files presses w) in
  (handler_result h = true -> can_continue (handler_files h) = true) /\
  (files = [] -> handler_result h = false) /\
  Forall2 (fun kv kv' =>
             fst kv' = fst kv /\ path (snd kv') = path (snd kv) /\
             result (snd kv') = result (snd kv) /\ warning (snd kv') = warning (snd kv))
          files (handler_files h).
Proof.
  cbv zeta.
  destruct (Handler_init_session files presses w) as (Hgate & Hempty & Hu).
  cbv zeta in Hgate, Hempty, Hu.
  split; [exact Hgate|]. split; [exact Hempty|].
  eapply fields_through_dialog; [apply spawn_entries_fields | exact Hu].
Qed.

End DialogFacts.

(** ** From the filtered list to the end of the run *)

Section PipelineFacts.

Context (os : OS) (p4 : Perforce) (host : Host).
Context (command_type : CommandType) (command : string) (wants_save : bool).

Lemma execute_script_run_files (files : Files) (w : World) :
  fst (snd (execute_script_run os host command_type command wants_save files w))
  = fst (snd (for_dict_items (execute_script_body os host command_type command wants_save)
                files w)).
Proof.
  unfold execute_script_run.
  destruct (for_dict_items (execute_script_body os host command_type command wants_save)
              files w)
    as [w' [files' [[]|e]]]; [|reflexivity].
  destruct ((cmds_file_new host ;;;
             dismiss_dialog "Batch Execute Script Results" "Script execution complete.") w')
    as [w'' r]. reflexivity.
Qed.


Lemma spawn_entries_keys (files : Files) : map fst (spawn_entries files) = map fst files.
Proof.
  unfold spawn_entries. rewrite List.map_map. reflexivity.
Qed.

(** What a run whose scripts leave the records alone makes of the
    collection it is given: the keys stay, and a record that is not
    [read_only] and has no outcome ends with no outcome or with one of the
    four that the loop writes for such a record. *)
Lemma execute_script_run_records (files : Files) (w : World) :
  host_leaves_records host ->
  Forall2 (fun kv kv' =>
             fst kv' = fst kv /\
             (status (snd kv) <> read_only -> result (snd kv) = None ->
              In (result (snd kv'))
                 [None; Some file_skipped; Some file_not_found;
                  Some file_missing; Some file_tampered]))
          files
          (fst (snd (execute_script_run os host command_type command wants_save files w))).
Proof.
  intros Hkeep. rewrite execute_script_run_files.
  apply (for_dict_items_related
           (execute_script_body os host command_type command wants_save)
           (fun _ v v' =>
              status v <> read_only -> result v = None ->
              In (result v') [None; Some file_skipped; Some file_not_found;
                              Some file_missing; Some file_tampered])).
  - intros key v _ Hr. left. symmetry. exact Hr.
  - intros done key v rest w0.
    destruct (execute_script_body_record os host command_type command wants_save
                done key v rest w0 Hkeep) as (v' & Hd & _ & _ & _ & H4 & H5).
    exists v'. split; [exact Hd|]. intros Hs Hr.
    destruct (FileStatus_eqb (status v) writable) eqn:E.
    + apply FileStatus_eqb_eq in E. destruct (H5 E) as (_ & [-> | (_ & [Hm|Hm])]).
      * rewrite Hr. left. reflexivity.
      * rewrite Hm. simpl. tauto.
      * rewrite Hm. simpl. tauto.
    + apply FileStatus_eqb_neq in E. destruct (H4 E) as (Hres' & _).
      rewrite Hres'. destruct (status v); simpl; try tauto; contradiction.
Qed.

Lemma Forall2_keys {R : string * PendingFile -> string * PendingFile -> Prop}
    (l l' : Files) :
  Forall2 (fun kv kv' => fst kv' = fst kv /\ R kv kv') l l' -> map fst l' = map fst l.
Proof.
  induction 1 as [|x y l l' (Hk & _) _ IH]; [reflexivity|].
  cbn [map]. rewrite Hk, IH. reflexivity.
Qed.

(** The records of such a run are those of the collection built at the
    start. *)
Lemma confirmed_run_keys (presses : list Press) (maya_files : list string) (w : World) :
  host_leaves_records host ->
  map fst (fst (snd (execute_script_confirmed os p4 host presses command_type command
                       wants_save maya_files w)))
  = map fst (build_pending_files os (fs w) maya_files).
Proof.
  intros Hkeep. unfold execute_script_confirmed.
  destruct (Handler_init_session os p4 (build_pending_files os (fs w) maya_files) presses w)
    as (_ & _ & Hu).
  cbv zeta in Hu. apply up_to_status_keys in Hu. rewrite spawn_entries_keys in Hu.
  destruct (Handler_init os p4 (build_pending_files os (fs w) maya_files) presses w)
    as [w1 h]. cbn [snd] in Hu.
  destruct (handler_result h); cbn [negb].
  - rewrite <- Hu. eapply Forall2_keys. apply execute_script_run_records. exact Hkeep.
  - exact Hu.
Qed.


(** X25. From the scan result on: when the scan found nothing, when
    nothing is left after filtering, or when the confirmation is answered
    with Abort, the batch does not start: one dialog is shown, the file
    system is untouched and no record exists.  Otherwise, when the scripts
    leave the records alone, every record of the run is for a path that
    the scan returned and the filter kept. *)
Theorem batch_starts_only_when_confirmed
    (prefix suffix filter_string file_type_text answer : string)
    (presses : list Press) (maya_files : list string) (w : World) :
  let out := execute_script_after_gather os p4 host prefix suffix filter_string
               file_type_text answer presses command_type command wants_save maya_files w in
  (filter_stage prefix suffix filter_string file_type_text maya_files = [] \/
   answer = "Abort" ->
   fs (fst out) = fs w /\ snd out = ([], Ok tt) /\
   exists title message, trace (fst out) = trace w ++ [ev_confirmDialog title message]) /\
  (host_leaves_records host ->
   forall k, In k (map fst (fst (snd out))) ->
             In k maya_files /\
             filter_verdict prefix suffix filter_string
               (parse_file_type file_type_text) k = appended).
Proof.
  cbv zeta. unfold execute_script_after_gather.
  destruct maya_files as [|m rest].
  { split; [|intros _ k []]. intros _. cbn [fst snd dismiss_dialog emit fs trace].
    split; [reflexivity|]. split; [reflexivity|]. eexists. eexists. reflexivity. }
  destruct (filter_stage prefix suffix filter_string file_type_text (m :: rest))
    as [|x l] eqn:Hf.
  { split; [|intros _ k []]. intros _. cbn [fst snd dismiss_dialog emit fs trace].
    split; [reflexivity|]. split; [reflexivity|]. eexists. eexists. reflexivity. }
  destruct (String.eqb answer "Abort") eqn:Ea.
  { split; [|intros _ k []]. intros _. cbn [fst snd dismiss_dialog emit fs trace].
    split; [reflexivity|]. split; [reflexivity|]. eexists. eexists. reflexivity. }
  split.
  - intros [H|H]; [discriminate H|]. apply String.eqb_neq in Ea. contradiction.
  - intros Hkeep k Hk.
    rewrite (confirmed_run_keys _ _ _ Hkeep) in Hk.
    destruct (build_fold_invariant os
                (fs (fst (dismiss_dialog "Confirm Batch Script Execution"
                            "Continue script execution?" w))) (x :: l) [])
      as (_ & _ & H3 & _); [constructor | intros k0 v [] |].
    apply H3 in Hk. destruct Hk as [[] | Hk].
    rewrite <- Hf, filter_stage_sieve in Hk. apply filter_In in Hk.
    destruct Hk as [Hin Hv]. apply Verdict_eqb_eq in Hv. split; assumption.
Qed.

End PipelineFacts.

(** ** The further properties on the example worlds *)

Lemma make_file_writable_adds_bits_witness :
  exists mode mode',
    fs world_demo !! "/proj/b.mb" = Some mode /\
    fs world_b_writable = <["/proj/b.mb" := mode']> (fs world_demo) /\
    trace world_b_writable = trace world_demo ++ [ev_chmod "/proj/b.mb" mode'] /\
    (forall i, Z.testbit mode i = true -> Z.testbit mode' i = true) /\
    Z.testbit mode' 7 = true /\
    (forall q, q <> "/proj/b.mb" -> fs world_b_writable !! q = fs world_demo !! q).
Proof.
  apply (make_file_writable_adds_bits os_owner "/proj/b.mb" world_demo world_b_writable).
  reflexivity.
Defined.


Lemma make_writable_unlocks_witness :
  check_file_status os_owner (fs world_b_writable) (path file_b) = writable /\
  set_status file_b writable = set_status file_b writable.
Proof.
  apply (make_writable_unlocks os_owner file_b (set_status file_b writable)
           world_demo world_b_writable).
  - intros mode H. exact H.
  - discriminate.
  - reflexivity.
  - reflexivity.
Defined.

Lemma checkout_file_perforce_missing_key_witness :
  checkout_file_perforce p4_no_user "/proj/b.mb" world_demo
  = (world_demo, Raise (KeyError "P4USER")).
Proof.
  apply (checkout_file_perforce_missing_key p4_no_user "/proj/b.mb" "/proj/.p4config"
           "P4USER" [("P4PORT", "1.1.1.1:1666"); ("P4CLIENT", "ws")] world_demo world_demo).
  - reflexivity.
  - reflexivity.
  - discriminate.
  - reflexivity.
  - simpl. intros [H|[H|[]]]; discriminate H.
  - right. right. split; [reflexivity|]. simpl. split; [left | right; left]; reflexivity.
Defined.

Lemma checkout_file_perforce_refused_witness :
  exists w3, checkout_file_perforce p4_refusing "/proj/b.mb" world_demo = (w3, Ok false).
Proof.
  eexists.
  eapply (checkout_file_perforce_refused p4_refusing "/proj/b.mb" "/proj/.p4config"
            "file(s) not on client."
            [("P4PORT", "1.1.1.1:1666"); ("P4CLIENT", "ws"); ("P4USER", "me")]
            world_demo world_demo).
  - reflexivity.
  - reflexivity.
  - discriminate.
  - reflexivity.
  - simpl. left. reflexivity.
  - simpl. right. left. reflexivity.
  - simpl. right. right. left. reflexivity.
  - reflexivity.
  - reflexivity.
  - reflexivity.
Defined.


Lemma read_p4config_line_binds_witness :
  exists key value settings',
    PyText.strip "  P4PORT = 1.1.1.1:1666  " = key +:+ "=" +:+ value /\
    Py.lacks "="%char key = true /\
    read_p4config_line [] "  P4PORT = 1.1.1.1:1666  " = Some settings' /\
    forall k w,
      config_get settings' k w
      = if String.eqb (PyText.strip key) k then (w, Ok (PyText.strip value))
        else config_get [] k w.
Proof.
  apply (read_p4config_line_binds [] "  P4PORT = 1.1.1.1:1666  "). reflexivity.
Defined.

Lemma read_p4config_roundtrip_witness :
  read_p4config_lines [] (map p4config_line_of p4config_demo) = Some p4config_demo.
Proof.
  apply (read_p4config_roundtrip p4config_demo).
  - repeat (apply NoDup_cons_2;
            [rewrite list_elem_of_In; simpl; intuition discriminate|]).
    apply NoDup_nil_2.
  - repeat (constructor; [repeat split|]). constructor.
  - repeat (constructor; [split; reflexivity|]). constructor.
Defined.

Lemma build_pending_files_fresh_witness :
  map fst (build_pending_files os_owner fs_demo ["/proj/a.ma"; "/proj/b.mb"])
  = ["/proj/a.ma"; "/proj/b.mb"].
Proof.
  destruct (build_pending_files_fresh os_owner fs_demo ["/proj/a.ma"; "/proj/b.mb"])
    as (_ & _ & _ & H & _).
  apply H.
  repeat (apply NoDup_cons_2;
          [rewrite list_elem_of_In; simpl; intuition discriminate|]).
  apply NoDup_nil_2.
Defined.



Lemma loop_without_writable_witness :
  fst (for_dict_items (execute_script_body os_owner host_quiet python "cmd" true)
         [("/proj/b.mb", file_b); ("/proj/c.ma", file_c)] world_demo)
  = world_demo.
Proof.
  rewrite (loop_without_writable os_owner host_quiet python "cmd" true
             [("/proj/b.mb", file_b); ("/proj/c.ma", file_c)] world_demo).
  - reflexivity.
  - constructor; [discriminate|]. constructor; [discriminate | constructor].
Defined.

Lemma dialog_confirms_only_open_gate_witness :
  can_continue
    (handler_files
       (snd (Handler_init os_owner p4_absent [("/proj/a.ma", file_a)] [continue] world_demo)))
  = true.
Proof.
  destruct (dialog_confirms_only_open_gate os_owner p4_absent
              [("/proj/a.ma", file_a)] [continue] world_demo) as [H _].
  apply H. reflexivity.
Defined.


Lemma batch_starts_only_when_confirmed_witness :
  snd (execute_script_after_gather os_owner p4_absent host_quiet "" "" "" "mb,ma" "Abort"
         [continue] python "cmd" true ["/proj/a.ma"] world_demo)
  = ([], Ok tt) /\
  (forall k,
     In k (map fst (fst (snd (execute_script_after_gather os_owner p4_absent host_quiet
                                "" "" "" "mb,ma" "Continue" [continue] python "cmd" true
                                ["/proj/a.ma"; "/proj/notes.txt"] world_demo)))) ->
     In k ["/proj/a.ma"; "/proj/notes.txt"] /\
     filter_verdict "" "" "" (parse_file_type "mb,ma") k = appended).
Proof.
  split.
  - destruct (batch_starts_only_when_confirmed os_owner p4_absent host_quiet python "cmd" true
                "" "" "" "mb,ma" "Abort" [continue] ["/proj/a.ma"] world_demo) as [H _].
    apply H. right. reflexivity.
  - destruct (batch_starts_only_when_confirmed os_owner p4_absent host_quiet python "cmd" true
                "" "" "" "mb,ma" "Continue" [continue] ["/proj/a.ma"; "/proj/notes.txt"]
                world_demo) as [_ H].
    apply H. intros command. split; intros file d w; reflexivity.
Defined.
